(** * planter_pressure: the image filter pipeline and the packaging helper

    A shallow embedding of [src/python/process.py] and
    [src/native_engine/build_assets.py].

    - [Py]: the Python values, exceptions and string helpers both programs
      rely on (truthiness, [str.format] of a value, [str.lower],
      [pathlib]'s [name], [suffix] and [stem], [strftime]).
    - [Os]: the file system the programs read and write.
    - [Process]: [ImageProcessor] and [process_image_json].
    - [BuildAssets]: [build_assets].

    The imaging library, the JSON codec, the byte-code compiler and the
    archive encoder are interfaces of the embedding: the programs are
    modelled over every implementation of them, and one small symbolic
    implementation is given to run the programs on concrete inputs. *)

From stdpp Require Import gmap strings list fin_maps pretty.
From Stdlib Require Import ZArith QArith Ascii String.

Set Warnings "-register-all".

Local Open Scope Z_scope.
Local Open Scope string_scope.

(* ===================================================================== *)
(** * Python values, exceptions, strings *)
(* ===================================================================== *)

Module Py.

(** Exception classes that the modelled code and its libraries raise.
    Every class here derives from [Exception]; [OtherException] stands for
    any further [Exception] subclass of a library, by its class name. *)
Inductive ExnClass :=
| FileNotFoundError
| FileExistsError
| IsADirectoryError
| OSError
| ValueError
| TypeError
| OverflowError
| IndexError
| PyCompileError
| UnidentifiedImageError
| OtherException (name : string).

(** [type(e).__name__] *)
Definition class_name (c : ExnClass) : string :=
  match c with
  | FileNotFoundError => "FileNotFoundError"
  | FileExistsError => "FileExistsError"
  | IsADirectoryError => "IsADirectoryError"
  | OSError => "OSError"
  | ValueError => "ValueError"
  | TypeError => "TypeError"
  | OverflowError => "OverflowError"
  | IndexError => "IndexError"
  | PyCompileError => "PyCompileError"
  | UnidentifiedImageError => "UnidentifiedImageError"
  | OtherException name => name
  end.

(** An exception object: its class and its [str(e)]. *)
Record Exn := mkExn { exn_class : ExnClass; exn_str : string }.

(** The outcome of a call: a value, or a raised exception. *)
Inductive Res (A : Type) :=
| Ok (a : A)
| Raise (e : Exn).
Arguments Ok {A} a.
Arguments Raise {A} e.

(** Values of the dynamic types that reach the code: what [json.loads]
    builds, and [None]. A float is kept as its IEEE-754 binary64 bit
    pattern; a dict as its items in insertion order. *)
Inductive PyVal :=
| PNone
| PBool (b : bool)
| PInt (z : Z)
| PFloat (bits : Z)
| PStr (s : string)
| PList (items : list PyVal)
| PDict (items : list (string * PyVal)).

(** [bool(v)], as used by [if not v]. *)
Definition truthy (v : PyVal) : bool :=
  match v with
  | PNone => false
  | PBool b => b
  | PInt z => negb (Z.eqb z 0)
  | PFloat bits => negb (Z.eqb (Z.land bits (2 ^ 63 - 1)) 0)
  | PStr s => negb (String.eqb s "")
  | PList items => match items with [] => false | _ => true end
  | PDict items => match items with [] => false | _ => true end
  end.

(** [d.get(key)]: the value stored under [key], [None] when absent. *)
Fixpoint dict_get (items : list (string * PyVal)) (key : string) : PyVal :=
  match items with
  | [] => PNone
  | (k, v) :: rest => if String.eqb k key then v else dict_get rest key
  end.

(** [key in d] *)
Definition dict_has (items : list (string * PyVal)) (key : string) : bool :=
  existsb (fun kv => String.eqb (fst kv) key) items.

(** ** Strings *)

(** [str.lower] on one character. Characters are bytes here; the case
    mapping is the ASCII one, which is what decides membership in
    [SUPPORTED_FORMATS] (no character outside ASCII lowers to one of the
    letters of the supported extensions). *)
Definition lower_ascii (a : ascii) : ascii :=
  let n := nat_of_ascii a in
  if ((65 <=? n) && (n <=? 90))%nat then ascii_of_nat (n + 32) else a.

(** [s.lower()] *)
Fixpoint lower (s : string) : string :=
  match s with
  | EmptyString => EmptyString
  | String a rest => String (lower_ascii a) (lower rest)
  end.

(** [s.split(c)] *)
Fixpoint split_on (c : ascii) (s : string) : list string :=
  match s with
  | EmptyString => [EmptyString]
  | String a rest =>
      if Ascii.eqb a c then EmptyString :: split_on c rest
      else match split_on c rest with
           | [] => [String a EmptyString]
           | w :: ws => String a w :: ws
           end
  end.

(** [s.rfind(c)]: the index of the last [c] in [s]; [None] for Python's -1. *)
Fixpoint rfind (c : ascii) (s : string) : option nat :=
  match s with
  | EmptyString => None
  | String a rest =>
      match rfind c rest with
      | Some i => Some (S i)
      | None => if Ascii.eqb a c then Some O else None
      end
  end.

(** The parts of [Path(s)] that can be its final component: [pathlib]
    (POSIX flavour) splits at the slashes and drops empty and "." parts. *)
Definition path_parts (s : string) : list string :=
  filter (fun w => w <> "" /\ w <> ".") (split_on "/" s).

(** [Path(s).name]: the final component, empty when there is none. *)
Definition path_name (s : string) : string := List.last (path_parts s) "".

(** [Path(s).suffix]: [name[i:]] for [i = name.rfind('.')] when
    [0 < i < len(name) - 1], otherwise empty. *)
Definition path_suffix (s : string) : string :=
  let name := path_name s in
  match rfind "." name with
  | Some i =>
      if ((0 <? i) && (i <? String.length name - 1))%nat
      then substring i (String.length name - i) name
      else ""
  | None => ""
  end.

(** [Path(s).stem]: [name[:i]] under the same condition, otherwise [name]. *)
Definition path_stem (s : string) : string :=
  let name := path_name s in
  match rfind "." name with
  | Some i =>
      if ((0 <? i) && (i <? String.length name - 1))%nat
      then substring 0 i name
      else name
  | None => name
  end.

(** [s.startswith(c)] and [s.endswith(c)] for one character. *)
Definition starts_with (c : ascii) (s : string) : bool :=
  match s with String a _ => Ascii.eqb a c | EmptyString => false end.

Fixpoint ends_with (c : ascii) (s : string) : bool :=
  match s with
  | EmptyString => false
  | String a EmptyString => Ascii.eqb a c
  | String _ rest => ends_with c rest
  end.

(** [os.path.join(a, b)] (posixpath): [b] alone when it is absolute,
    [a + b] when [a] is empty or ends with a slash, [a + '/' + b]
    otherwise. *)
Definition os_path_join (a b : string) : string :=
  if starts_with "/" b then b
  else if String.eqb a "" || ends_with "/" a then a +:+ b
  else a +:+ "/" +:+ b.

(** ** Dates *)

(** The decimal digit of [n mod 10]. *)
Definition digit (n : Z) : ascii := ascii_of_nat (Z.to_nat (48 + n mod 10)).

(** [n] in decimal, zero-padded to exactly [w] digits. *)
Fixpoint pad (w : nat) (n : Z) : string :=
  match w with
  | O => ""
  | S w' => pad w' (n / 10) +:+ String (digit n) ""
  end.

(** A naive local [datetime], as [datetime.now()] returns it. *)
Record DateTime := mkDateTime {
  year : Z; month : Z; day : Z;
  hour : Z; minute : Z; second : Z; microsecond : Z
}.

(** The field ranges of a [datetime]. Years start at 1000: below that
    the width of [%Y] depends on the platform's C library. *)
Definition wf_datetime (d : DateTime) : Prop :=
  1000 <= year d <= 9999 /\ 1 <= month d <= 12 /\ 1 <= day d <= 31 /\
  0 <= hour d <= 23 /\ 0 <= minute d <= 59 /\ 0 <= second d <= 59 /\
  0 <= microsecond d <= 999999.

(** [d.strftime("%Y%m%d_%H%M%S_%f")] *)
Definition strftime (d : DateTime) : string :=
  pad 4 (year d) +:+ pad 2 (month d) +:+ pad 2 (day d) +:+ "_" +:+
  pad 2 (hour d) +:+ pad 2 (minute d) +:+ pad 2 (second d) +:+ "_" +:+
  pad 6 (microsecond d).

(** [d.isoformat()]: the fraction is left out when it is zero. *)
Definition isoformat (d : DateTime) : string :=
  pad 4 (year d) +:+ "-" +:+ pad 2 (month d) +:+ "-" +:+ pad 2 (day d) +:+
  "T" +:+ pad 2 (hour d) +:+ ":" +:+ pad 2 (minute d) +:+ ":" +:+
  pad 2 (second d) +:+
  (if Z.eqb (microsecond d) 0 then "" else "." +:+ pad 6 (microsecond d)).

End Py.
Export Py.

(* ===================================================================== *)
(** * The file system *)
(* ===================================================================== *)

Module Os.

(** What a path names: a regular file with its bytes, or a directory. *)
Inductive Node :=
| File (data : string)
| Dir.

(** The file system is a finite map from path strings to nodes. A path
    string names the node stored under exactly that string: the model has
    no links, no current directory and no second spelling of a path, and
    it does not track the ancestors of a directory. *)
Abbreviation FS := (gmap string Node).

(** Open file descriptors, for the calls that accept an [int] as path. *)
Abbreviation FDs := (gmap Z Node).

(** [type(v).__name__], as the [TypeError] messages quote it. *)
Definition type_name (v : PyVal) : string :=
  match v with
  | PNone => "NoneType"
  | PBool _ => "bool"
  | PInt _ => "int"
  | PFloat _ => "float"
  | PStr _ => "str"
  | PList _ => "list"
  | PDict _ => "dict"
  end.

(** [os.stat(v)]: a string is looked up in the file system; an [int] (and
    a [bool], which is one) is taken as a file descriptor, which must fit
    a C [int]; any other type is a [TypeError]. *)
Definition os_stat (fs : FS) (fds : FDs) (v : PyVal) : Res Node :=
  let by_fd (z : Z) :=
    if Z.ltb z (- 2 ^ 31) then
      Raise (mkExn OverflowError "fd is less than minimum")
    else if Z.ltb (2 ^ 31 - 1) z then
      Raise (mkExn OverflowError "fd is greater than maximum")
    else match fds !! z with
         | Some n => Ok n
         | None => Raise (mkExn OSError "[Errno 9] Bad file descriptor")
         end in
  match v with
  | PStr s =>
      match fs !! s with
      | Some n => Ok n
      | None =>
          Raise (mkExn FileNotFoundError "[Errno 2] No such file or directory")
      end
  | PInt z => by_fd z
  | PBool b => by_fd (if b then 1 else 0)
  | _ =>
      Raise (mkExn TypeError
        ("stat: path should be string, bytes, os.PathLike or integer, not "
         +:+ type_name v))
  end.

(** [isinstance(e, (OSError, ValueError))], the errors that
    [os.path.exists] and [os.path.isfile] answer with [False]. *)
Definition is_OSError_or_ValueError (c : ExnClass) : bool :=
  match c with
  | FileNotFoundError | FileExistsError | IsADirectoryError
  | OSError | ValueError => true
  | _ => false
  end.

(** [os.path.exists(v)] *)
Definition os_path_exists (fs : FS) (fds : FDs) (v : PyVal) : Res bool :=
  match os_stat fs fds v with
  | Ok _ => Ok true
  | Raise e =>
      if is_OSError_or_ValueError (exn_class e) then Ok false else Raise e
  end.

(** [os.path.isfile(v)] *)
Definition os_path_isfile (fs : FS) (fds : FDs) (v : PyVal) : Res bool :=
  match os_stat fs fds v with
  | Ok (File _) => Ok true
  | Ok Dir => Ok false
  | Raise e =>
      if is_OSError_or_ValueError (exn_class e) then Ok false else Raise e
  end.

(** [os.fspath(v)] as [Path(v)], [open] and [os.makedirs] apply it: only
    a string is a path. *)
Definition fspath (v : PyVal) : Res string :=
  match v with
  | PStr s => Ok s
  | _ =>
      Raise (mkExn TypeError
        ("expected str, bytes or os.PathLike object, not " +:+ type_name v))
  end.

(** [os.makedirs(p, exist_ok=True)] *)
Definition makedirs (fs : FS) (p : string) : Res FS :=
  if String.eqb p "" then
    Raise (mkExn FileNotFoundError "[Errno 2] No such file or directory: ")
  else match fs !! p with
       | Some Dir => Ok fs
       | Some (File _) =>
           Raise (mkExn FileExistsError ("[Errno 17] File exists: " +:+ p))
       | None => Ok (<[p := Dir]> fs)
       end.

(** Reading all bytes of [p]. *)
Definition read_file (fs : FS) (p : string) : Res string :=
  match fs !! p with
  | Some (File data) => Ok data
  | Some Dir =>
      Raise (mkExn IsADirectoryError ("[Errno 21] Is a directory: " +:+ p))
  | None =>
      Raise (mkExn FileNotFoundError
               ("[Errno 2] No such file or directory: " +:+ p))
  end.

(** Opening [p] for writing: refused when [p] is a directory. *)
Definition open_w (fs : FS) (p : string) : Res unit :=
  match fs !! p with
  | Some Dir =>
      Raise (mkExn IsADirectoryError ("[Errno 21] Is a directory: " +:+ p))
  | _ => Ok tt
  end.

(** The size a directory reports; it depends on the file system. *)
Definition DIR_SIZE : Z := 4096.

(** [os.path.getsize(p)] *)
Definition getsize (fs : FS) (p : string) : Res Z :=
  match fs !! p with
  | Some (File data) => Ok (Z.of_nat (String.length data))
  | Some Dir => Ok DIR_SIZE
  | None =>
      Raise (mkExn FileNotFoundError
               ("[Errno 2] No such file or directory: " +:+ p))
  end.

End Os.
Export Os.

(* ===================================================================== *)
(** * process.py *)
(* ===================================================================== *)

Module Process.

(** The kernels of [ImageFilter] the program uses. *)
Inductive Filter := EDGE_ENHANCE | SMOOTH.

(** The imaging library (Pillow), as far as the program calls it. Every
    call may raise. An image is a value: a call that changes an image in
    place ([paste], [ImageDraw.text]) returns the changed image. *)
Class Imaging := {
  Image : Type;
  Font : Type;
  (** [Image.open], on the bytes of the file *)
  Image_open : string -> Res Image;
  (** [img.size], as (width, height), and [img.mode] *)
  img_size : Image -> Z * Z;
  img_mode : Image -> string;
  (** [Image.new(mode, size, color)] *)
  Image_new : string -> Z * Z -> Z * Z * Z -> Res Image;
  (** [img.split()] *)
  img_split : Image -> Res (list Image);
  (** [bg.paste(img, mask=mask)] *)
  img_paste : Image -> Image -> option Image -> Res Image;
  (** [img.convert(mode)] *)
  img_convert : Image -> string -> Res Image;
  (** [ImageEnhance.Sharpness(img).enhance(factor)] *)
  Sharpness_enhance : Image -> Q -> Res Image;
  (** [ImageEnhance.Contrast(img).enhance(factor)] *)
  Contrast_enhance : Image -> Q -> Res Image;
  (** [img.filter(kernel)] *)
  img_filter : Image -> Filter -> Res Image;
  (** [ImageDraw.Draw(img)] *)
  ImageDraw_Draw : Image -> Res unit;
  (** [ImageFont.truetype(path, size)] and [ImageFont.load_default()] *)
  ImageFont_truetype : string -> Z -> Res Font;
  ImageFont_load_default : Res Font;
  (** [draw.textbbox(xy, text, font=font)] *)
  draw_textbbox : Image -> Z * Z -> string -> Font -> Res (Z * Z * Z * Z);
  (** [draw.text(xy, text, font=font, fill=fill)] *)
  draw_text : Image -> Z * Z -> string -> Font -> Z * Z * Z -> Res Image;
  (** the encoder behind [img.save(path, format=format, optimize=optimize)] *)
  img_encode : Image -> string -> bool -> Res string
}.

(** What the module finds around it when it runs. *)
Class Host := {
  (** [str(e)] of the [ImportError] of line 37, when importing Pillow failed *)
  pil_import_error : option string;
  (** [tempfile.gettempdir()] *)
  gettempdir : string;
  (** the successive readings of [datetime.now()], each a date-time of the
      year 1000 or later *)
  clock : nat -> DateTime;
  clock_wf : forall n, wf_datetime (clock n);
  (** [str(v)] of a float, a list or a dict *)
  py_repr : PyVal -> string;
  (** [json.loads] and [json.dumps] *)
  json_loads : string -> Res PyVal;
  json_dumps : PyVal -> string
}.

Section Monad.
Context `{PIL : Imaging} `{HOST : Host}.

(** Lines 33-39: the outcome of importing Pillow. *)
Definition PIL_AVAILABLE : bool :=
  match pil_import_error with None => true | Some _ => false end.

Definition PIL_ERROR : PyVal :=
  match pil_import_error with None => PNone | Some msg => PStr msg end.

(** [str(v)], as ["{}".format(v)] inserts it. *)
Definition py_str (v : PyVal) : string :=
  match v with
  | PNone => "None"
  | PBool true => "True"
  | PBool false => "False"
  | PInt z => pretty z
  | PStr s => s
  | _ => py_repr v
  end.

(** ** State *)

(** Everything outside the processor object that a call reads or changes.
    [raised] records, in order, every exception a library call has raised,
    whether or not the program went on to catch it; the program never
    reads it. *)
Record World := mkWorld {
  fs : FS;
  fds : FDs;
  ticks : nat;
  raised : list Exn
}.

Record ImageProcessor := mkImageProcessor {
  _font_cache : gmap Z Font
}.

(** [ImageProcessor.__init__] *)
Definition __init__ : ImageProcessor := mkImageProcessor ∅.

(** A method runs on its object and the world. *)
Record St := mkSt {
  self : ImageProcessor;
  world : World
}.

(** ** Computations that change the state and may raise *)

Definition M (A : Type) : Type := St -> Res A * St.

Definition ret {A} (a : A) : M A := fun st => (Ok a, st).

Definition bind {A B} (m : M A) (k : A -> M B) : M B :=
  fun st =>
    match m st with
    | (Ok a, st') => k a st'
    | (Raise e, st') => (Raise e, st')
    end.

Definition log_raised (e : Exn) (st : St) : St :=
  let w := world st in
  mkSt (self st) (mkWorld (fs w) (fds w) (ticks w) (raised w ++ [e])).

(** The outcome of a library call enters the computation; a raised
    exception is recorded. *)
Definition lib {A} (r : Res A) : M A :=
  fun st =>
    match r with
    | Ok a => (Ok a, st)
    | Raise e => (Raise e, log_raised e st)
    end.

(** A library call that reads the file system. *)
Definition lib_fs {A} (f : FS -> FDs -> Res A) : M A :=
  fun st => lib (f (fs (world st)) (fds (world st))) st.

(** [try: m except Exception as e: h e] *)
Definition try_except {A} (m : M A) (h : Exn -> M A) : M A :=
  fun st =>
    match m st with
    | (Ok a, st') => (Ok a, st')
    | (Raise e, st') => h e st'
    end.

Definition set_fs (fs' : FS) : M unit :=
  fun st =>
    let w := world st in
    (Ok tt, mkSt (self st) (mkWorld fs' (fds w) (ticks w) (raised w))).

(** [datetime.now()]: the next reading of the clock. *)
Definition datetime_now : M DateTime :=
  fun st =>
    let w := world st in
    (Ok (clock (ticks w)),
     mkSt (self st) (mkWorld (fs w) (fds w) (S (ticks w)) (raised w))).

End Monad.

Declare Scope py_scope.
Delimit Scope py_scope with py.
Notation "x <~ m ;; k" := (bind m (fun x => k))
  (at level 100, m at next level, right associativity) : py_scope.
Notation "m ;;; k" := (bind m (fun _ => k))
  (at level 100, right associativity) : py_scope.
Local Open Scope py_scope.

Section Methods.
Context `{PIL : Imaging} `{HOST : Host}.

(** ** class ImageProcessor *)

(** Line 45 *)
Definition SUPPORTED_FORMATS : gset string :=
  {[ ".png"; ".jpg"; ".jpeg"; ".gif"; ".bmp"; ".webp"; ".tiff" ]}.

(** Lines 54-57 *)
Definition font_paths : list string :=
  [ "C:\Windows\Fonts\arial.ttf"; "C:\Windows\Fonts\segoeui.ttf" ].

(** Lines 59-65: the first font path that loads. A path that fails to load
    is skipped by the bare [except: continue]. *)
Fixpoint try_truetype (fps : list string) (sz : Z) : M (option Font) :=
  match fps with
  | [] => ret None
  | fp :: rest =>
      try_except (font <~ lib (ImageFont_truetype fp sz) ;; ret (Some font))
                 (fun _ => try_truetype rest sz)
  end.

(** Lines 70-74: clear the cache when it holds more than 10 fonts, then
    store the font. *)
Definition cache_store (sz : Z) (font : Font) : M unit :=
  fun st =>
    let cache := _font_cache (self st) in
    let cache := if (10 <? size cache)%nat then ∅ else cache in
    (Ok tt, mkSt (mkImageProcessor (<[sz := font]> cache)) (world st)).

(** Lines 50-75 *)
Definition _get_font (sz : Z) : M Font :=
  fun st =>
    match _font_cache (self st) !! sz with
    | Some font => (Ok font, st)
    | None =>
        (found <~ try_truetype font_paths sz ;;
         font <~ match found with
                 | Some font => ret font
                 | None => lib ImageFont_load_default
                 end ;;
         cache_store sz font ;;;
         ret font) st
    end.

(** Lines 77-89 *)
Definition _validate_input (path : PyVal) : M (bool * string) :=
  if negb (truthy path) then ret (false, "Empty path")
  else
    found <~ lib_fs (fun fs fds => os_path_exists fs fds path) ;;
    if negb found then ret (false, "File not found: " +:+ py_str path)
    else
      regular <~ lib_fs (fun fs fds => os_path_isfile fs fds path) ;;
      if negb regular then ret (false, "Not a file: " +:+ py_str path)
      else
        p <~ lib (fspath path) ;;
        let ext := lower (path_suffix p) in
        if negb (bool_decide (ext ∈ SUPPORTED_FORMATS))
        then ret (false, "Unsupported format: " +:+ ext)
        else ret (true, "").

(** Lines 91-99 *)
Definition _generate_output_path (input_path output_dir : PyVal) : M string :=
  let output_dir :=
    match output_dir with PNone => PStr gettempdir | _ => output_dir end in
  dir <~ lib (fspath output_dir) ;;
  fs' <~ lib_fs (fun fs _ => makedirs fs dir) ;;
  set_fs fs' ;;;
  now <~ datetime_now ;;
  let ts := strftime now in
  p <~ lib (fspath input_path) ;;
  let name := path_stem p in
  ret (os_path_join dir ("processed_" +:+ name +:+ "_" +:+ ts +:+ ".png")).

(** [t[i]] on the tuple that [split] returns *)
Definition tuple_index {A} (t : list A) (i : nat) : Res A :=
  match nth_error t i with
  | Some a => Ok a
  | None => Raise (mkExn IndexError "tuple index out of range")
  end.

(** Lines 123-137: bring the image to mode RGB. *)
Definition to_rgb (img : Image) : M Image :=
  let mode := img_mode img in
  if String.eqb mode "RGBA" || String.eqb mode "LA" || String.eqb mode "P"
  then
    bg <~ lib (Image_new "RGB" (img_size img) (255, 255, 255)) ;;
    if String.eqb mode "RGBA" then
      bands <~ lib (img_split img) ;;
      mask <~ lib (tuple_index bands 3) ;;
      lib (img_paste bg img (Some mask))
    else if String.eqb mode "LA" then
      bands <~ lib (img_split img) ;;
      mask <~ lib (tuple_index bands 1) ;;
      lib (img_paste bg img (Some mask))
    else lib (img_paste bg img None)
  else if negb (String.eqb mode "RGB") then lib (img_convert img "RGB")
  else ret img.

(** Lines 141-160: the four enhancement steps. *)
Definition enhance (img : Image) : M Image :=
  img <~ lib (Sharpness_enhance img (3 # 2)) ;;
  img <~ lib (img_filter img EDGE_ENHANCE) ;;
  img <~ lib (Contrast_enhance img (6 # 5)) ;;
  lib (img_filter img SMOOTH).

(** [range(lo, hi)] *)
Definition range (lo hi : Z) : list Z :=
  map (fun i => lo + Z.of_nat i) (seq 0 (Z.to_nat (hi - lo))).

(** [for b in l: a = f a b] *)
Fixpoint for_each {A B} (f : A -> B -> M A) (l : list B) (a : A) : M A :=
  match l with
  | [] => ret a
  | b :: rest => a' <~ f a b ;; for_each f rest a'
  end.

Definition text : string := "PLANTER PRESSURE DEMO".

(** [max(24, min(300, int(height * 0.10)))]. For the heights an image can
    have, truncating the float product is the integer quotient by 10. *)
Definition font_size_of (height : Z) : Z :=
  Z.max 24 (Z.min 300 (Z.quot height 10)).

(** Lines 179-183: the black copies of the text around (x, y). *)
Definition draw_shadow (font : Font) (font_size x y : Z) (img : Image)
  : M Image :=
  let shadow_off := Z.max 3 (font_size / 20) in
  for_each
    (fun img ox =>
       for_each
         (fun img oy =>
            if negb (Z.eqb ox 0) || negb (Z.eqb oy 0)
            then lib (draw_text img (x + ox, y + oy) text font (0, 0, 0))
            else ret img)
         (range (- shadow_off) (shadow_off + 1)) img)
    (range (- shadow_off) (shadow_off + 1)) img.

(** Lines 163-186: the shadowed red label at the centre. *)
Definition draw_label (img : Image) : M Image :=
  lib (ImageDraw_Draw img) ;;;
  let '(width, height) := img_size img in
  let font_size := font_size_of height in
  font <~ _get_font font_size ;;
  bbox <~ lib (draw_textbbox img (0, 0) text font) ;;
  let '(x0, y0, x1, y1) := bbox in
  let text_w := x1 - x0 in
  let text_h := y1 - y0 in
  let x := (width - text_w) / 2 in
  let y := (height - text_h) / 2 in
  img <~ draw_shadow font font_size x y img ;;
  lib (draw_text img (x, y) text font (255, 0, 0)).

(** [img.save(path, format='PNG', optimize=True)]: the file is opened for
    writing, the image encoded and the bytes written. A failed encoding
    leaves the file system as it was. *)
Definition img_save (img : Image) (path : string) : M unit :=
  lib_fs (fun fs _ => open_w fs path) ;;;
  data <~ lib (img_encode img "PNG" true) ;;
  fun st => set_fs (<[path := File data]> (fs (world st))) st.

(** Lines 203-213 *)
Definition success_result (output_path : string) (input_path : PyVal)
    (original_size : Z * Z) (original_mode : string) (output_size : Z)
    (processed_at : DateTime) : PyVal :=
  PDict [ ("status", PStr "success");
          ("output_image_path", PStr output_path);
          ("metadata", PDict [
             ("input_path", input_path);
             ("original_size",
              PList [PInt (fst original_size); PInt (snd original_size)]);
             ("original_mode", PStr original_mode);
             ("output_size_bytes", PInt output_size);
             ("processed_at", PStr (isoformat processed_at)) ]) ].

(** Lines 114, 107-110 *)
Definition error_result (err : string) : PyVal :=
  PDict [ ("status", PStr "error"); ("error", PStr err) ].

(** Lines 216-220 *)
Definition failure_result (e : Exn) : PyVal :=
  PDict [ ("status", PStr "error");
          ("error", PStr ("Processing failed: " +:+ exn_str e));
          ("error_type", PStr (class_name (exn_class e))) ].

(** Lines 118-213: the body of the [try]. Closing an image and collecting
    garbage change nothing that the model holds. *)
Definition process_body (input_path output_dir : PyVal) : M PyVal :=
  p <~ lib (fspath input_path) ;;
  data <~ lib_fs (fun fs _ => read_file fs p) ;;
  img <~ lib (Image_open data) ;;
  let original_size := img_size img in
  let original_mode := img_mode img in
  img <~ to_rgb img ;;
  img <~ enhance img ;;
  img <~ draw_label img ;;
  output_path <~ _generate_output_path input_path output_dir ;;
  img_save img output_path ;;;
  output_size <~ lib_fs (fun fs _ => getsize fs output_path) ;;
  now <~ datetime_now ;;
  ret (success_result output_path input_path original_size original_mode
         output_size now).

(** Lines 101-228. The [finally] block closes the image and collects
    garbage. *)
Definition process (input_path output_dir : PyVal) : M PyVal :=
  if negb PIL_AVAILABLE then
    ret (error_result ("Pillow not available: " +:+ py_str PIL_ERROR))
  else
    v <~ _validate_input input_path ;;
    let '(valid, err) := v in
    if negb valid then ret (error_result err)
    else
      try_except (process_body input_path output_dir)
                 (fun e => ret (failure_result e)).

(** ** Module level *)

(** The module's globals and the world. *)
Record Glob := mkGlob {
  _processor : option ImageProcessor;
  g_world : World
}.

(** [get_processor()]: the processor, created on first use. *)
Definition get_processor (g : Glob) : ImageProcessor * Glob :=
  match _processor g with
  | Some p => (p, g)
  | None => (__init__, mkGlob (Some __init__) (g_world g))
  end.

(** The record of raised exceptions, one longer. *)
Definition glob_log (e : Exn) (g : Glob) : Glob :=
  let w := g_world g in
  mkGlob (_processor g) (mkWorld (fs w) (fds w) (ticks w) (raised w ++ [e])).

(** Lines 241-262 *)
Definition process_image_json (input_json : string) (g : Glob)
  : Res string * Glob :=
  match json_loads input_json with
  | Raise e =>
      (Ok (json_dumps (error_result ("Invalid JSON: " +:+ exn_str e))),
       glob_log e g)
  | Ok data =>
      match data with
      | PDict items =>
          let input_path := dict_get items "input_image_path" in
          if negb (truthy input_path) then
            (Ok (json_dumps (error_result "Missing input_image_path")), g)
          else
            let output_dir := dict_get items "output_dir" in
            let '(processor, g) := get_processor g in
            match process input_path output_dir (mkSt processor (g_world g))
            with
            | (Ok result, st) =>
                (Ok (json_dumps result), mkGlob (Some (self st)) (world st))
            | (Raise e, st) =>
                (Raise e, mkGlob (Some (self st)) (world st))
            end
      | _ =>
          let e := mkExn (OtherException "AttributeError")
                     ("'" +:+ type_name data +:+
                      "' object has no attribute 'get'") in
          (Raise e, g)
      end
  end.

(** Lines 265-276: the command line, once [argparse] has read the input
    path and the optional output directory. The request is written as
    JSON, handed to [process_image_json], and the answer printed. *)
Definition __main__ (input : string) (output_dir : option string) (g : Glob)
  : Res (list string) * Glob :=
  let request :=
    PDict [ ("input_image_path", PStr input);
            ("output_dir",
             match output_dir with Some d => PStr d | None => PNone end) ] in
  match process_image_json (json_dumps request) g with
  | (Ok result, g) => (Ok [result], g)
  | (Raise e, g) => (Raise e, g)
  end.

(** Lines 24-27 *)
Definition SITE_PACKAGES : list string :=
  [ "C:\Users\adit\AppData\Local\Programs\Python\Python312\Lib\site-packages";
    "C:\Users\adit\AppData\Local\Programs\Python\Python312\Lib" ].

(** Lines 28-30, for the packages [pkgs]: each one that exists and is not
    yet on the path is put in front of it. *)
Definition add_to_sys_path (pkgs : list string) (fs : FS)
    (sys_path : list string) : list string :=
  fold_left
    (fun sys_path p =>
       match os_path_exists fs ∅ (PStr p) with
       | Ok true =>
           if bool_decide (p ∈ sys_path) then sys_path else p :: sys_path
       | _ => sys_path
       end)
    pkgs sys_path.

(** Lines 28-30 *)
Definition add_site_packages (fs : FS) (sys_path : list string)
  : list string :=
  add_to_sys_path SITE_PACKAGES fs sys_path.

End Methods.

(** ** A symbolic imaging library and host, to run the program *)

Module Demo.

(** An image is its size, its mode and the operations that made it. *)
Record SymImage := mkSym {
  s_size : Z * Z;
  s_mode : string;
  s_ops : list string
}.

Definition sym_op (name : string) (img : SymImage) : SymImage :=
  mkSym (s_size img) (s_mode img) (s_ops img ++ [name]).

(** The decoder reads the mode off the file's bytes and gives every image
    640 by 480 pixels; an empty file is not an image. No font file of
    [font_paths] exists, as on a host that is not Windows. *)
#[export] Instance sym_imaging : Imaging := {|
  Image := SymImage;
  Font := string;
  Image_open data :=
    if String.eqb data "" then
      Raise (mkExn UnidentifiedImageError "cannot identify image file")
    else Ok (mkSym (640, 480) data ["open"]);
  img_size := s_size;
  img_mode := s_mode;
  Image_new mode size color := Ok (mkSym size mode ["new"]);
  img_split img :=
    Ok (map (fun _ => mkSym (s_size img) "L" (s_ops img ++ ["band"]))
            (seq 0 (String.length (s_mode img))));
  img_paste bg img mask :=
    Ok (mkSym (s_size bg) (s_mode bg) (s_ops img ++ ["paste"]));
  img_convert img mode :=
    Ok (mkSym (s_size img) mode (s_ops img ++ ["convert"]));
  Sharpness_enhance img factor := Ok (sym_op "sharpness" img);
  Contrast_enhance img factor := Ok (sym_op "contrast" img);
  img_filter img kernel :=
    Ok (sym_op match kernel with
               | EDGE_ENHANCE => "edge_enhance"
               | SMOOTH => "smooth"
               end img);
  ImageDraw_Draw img := Ok tt;
  ImageFont_truetype path sz := Raise (mkExn OSError "cannot open resource");
  ImageFont_load_default := Ok "default";
  draw_textbbox img xy text font := Ok (0, 0, 200, 20);
  draw_text img xy text font fill :=
    Ok (sym_op (if decide (fill = (255, 0, 0)) then "red" else "black") img);
  img_encode img format optimize :=
    Ok (fold_left (fun acc op => acc +:+ " " +:+ op) (s_ops img) format)
|}.

(** The double quote character. *)
Definition dq : string := String (ascii_of_nat 34) "".

(** A JSON writer without escapes. *)
Fixpoint dumps (v : PyVal) : string :=
  match v with
  | PNone => "null"
  | PBool true => "true"
  | PBool false => "false"
  | PInt z => pretty z
  | PFloat bits => "float:" +:+ pretty bits
  | PStr s => dq +:+ s +:+ dq
  | PList items =>
      "[" +:+
      (fix go (l : list PyVal) : string :=
         match l with
         | [] => ""
         | [x] => dumps x
         | x :: rest => dumps x +:+ ", " +:+ go rest
         end) items +:+ "]"
  | PDict items =>
      "{" +:+
      (fix go (l : list (string * PyVal)) : string :=
         match l with
         | [] => ""
         | [(k, x)] => dq +:+ k +:+ dq +:+ ": " +:+ dumps x
         | (k, x) :: rest =>
             dq +:+ k +:+ dq +:+ ": " +:+ dumps x +:+ ", " +:+ go rest
         end) items +:+ "}"
  end.

(** A clock that advances one microsecond per reading, within one
    second. *)
Definition tick_clock (n : nat) : DateTime :=
  mkDateTime 2024 1 2 3 4 5 (Z.of_nat n mod 1000000).

Definition tick_clock_wf (n : nat) : wf_datetime (tick_clock n) :=
  let bound := Z.mod_pos_bound (Z.of_nat n) 1000000 eq_refl in
  ltac:(unfold wf_datetime, tick_clock; simpl; lia).

(** A host whose JSON reader knows the documents of [docs]. *)
Definition host (import_error : option string)
    (docs : list (string * PyVal)) : Host := {|
  pil_import_error := import_error;
  gettempdir := "/tmp";
  clock := tick_clock;
  clock_wf := tick_clock_wf;
  py_repr v := dumps v;
  json_loads s :=
    match List.find (fun d => String.eqb (fst d) s) docs with
    | Some d => Ok (snd d)
    | None => Raise (mkExn (OtherException "JSONDecodeError") "Expecting value")
    end;
  json_dumps := dumps
|}.

(** Pillow imported. *)
Definition host_ok : Host := host None [].

(** Pillow missing. *)
Definition host_no_pil : Host := host (Some "No module named 'PIL'") [].

(** A world with one RGB image, one text file and one directory. *)
Definition fs0 : FS :=
  <["/in/leaf.png" := File "RGB"]>
  (<["/in/notes.txt" := File "hello"]>
  (<["/in/empty.png" := File ""]>
  (<["/in/dir.png" := Dir]> ∅))).

Definition world0 : World := mkWorld fs0 ∅ 0 [].

Definition st0 : St := mkSt __init__ world0.

(** A first run on the RGB image, and the result it returns. *)
Definition run0 : Res PyVal * St :=
  @process sym_imaging host_ok (PStr "/in/leaf.png") (PStr "/out") st0.

Definition result_of (run : Res PyVal * St) : PyVal :=
  match fst run with Ok r => r | Raise _ => PNone end.

(** A second run on the same image, in the state the first one left. *)
Definition run1 : Res PyVal * St :=
  @process sym_imaging host_ok (PStr "/in/leaf.png") (PStr "/out")
    (snd run0).

(** A request whose path is a JSON array: {"input_image_path": [1]}. *)
Definition doc_list : string :=
  "{" +:+ dq +:+ "input_image_path" +:+ dq +:+ ": [1]}".

(** A request for the RGB image: {"input_image_path": "/in/leaf.png"}. *)
Definition doc_leaf : string :=
  "{" +:+ dq +:+ "input_image_path" +:+ dq +:+ ": " +:+
  dq +:+ "/in/leaf.png" +:+ dq +:+ "}".

(** A request without a path: {}. *)
Definition doc_empty : string := "{}".

Definition host_json : Host :=
  host None
    [ (doc_list, PDict [("input_image_path", PList [PInt 1])]);
      (doc_leaf, PDict [("input_image_path", PStr "/in/leaf.png")]);
      (doc_empty, PDict []) ].

(** The module before its first request. *)
Definition glob0 : Glob := mkGlob None world0.

(** The request the command line writes for the RGB image and no output
    directory, and a host whose JSON reader reads it back. *)
Definition cli_request : PyVal :=
  PDict [ ("input_image_path", PStr "/in/leaf.png"); ("output_dir", PNone) ].

Definition host_cli : Host := host None [ (dumps cli_request, cli_request) ].

End Demo.

End Process.

(* ===================================================================== *)
(** * build_assets.py *)
(* ===================================================================== *)

Module BuildAssets.

(** What the script calls outside itself. *)
Class Tools := {
  (** [str(Path(p).resolve())] *)
  resolve : string -> string;
  (** the byte-code compiler behind [py_compile.compile(..., doraise=True,
      optimize=1)]: the bytes of the compiled module, or the error raised *)
  source_to_code : string -> Res string;
  (** the bytes of a deflated archive with the given entries, each an
      archive name and its data *)
  zip_deflated : list (string * string) -> string
}.

(** How a run of the script ends: it returns, it leaves through
    [sys.exit(code)], or an exception that nothing catches ends it. *)
Inductive Outcome :=
| Returned
| Exit (code : Z)
| Uncaught (e : Exn).

(** The exit status of the process. *)
Definition exit_status (o : Outcome) : Z :=
  match o with
  | Returned => 0
  | Exit code => code
  | Uncaught _ => 1
  end.

Section Script.
Context `{TOOLS : Tools}.

(** [p / name] for a resolved directory and a plain file name *)
Definition joinpath (p name : string) : string := os_path_join p name.

(** [p.exists()] *)
Definition path_exists (fs : FS) (p : string) : bool :=
  match fs !! p with Some _ => true | None => false end.

(** [py_compile.compile(file, cfile=cfile, doraise=True, optimize=1)]: a
    target that exists and is no regular file is refused; the source is
    read and compiled; the byte code is written only when that succeeded. *)
Definition py_compile (fs : FS) (file cfile : string) : Res FS :=
  match fs !! cfile with
  | Some Dir =>
      Raise (mkExn FileExistsError
               (cfile +:+ " is a non-regular file and will be changed into"
                +:+ " a regular one if import writes a byte-compiled file"
                +:+ " to it"))
  | _ =>
      match read_file fs file with
      | Raise e => Raise e
      | Ok source =>
          match source_to_code source with
          | Raise e => Raise e
          | Ok code => Ok (<[cfile := File code]> fs)
          end
      end
  end.

(** Lines 37-39: the archive is opened for writing, the one file is added
    under [arcname], and leaving the [with] block closes the archive, also
    when adding the file raised. *)
Definition zip_write (fs : FS) (zip_filename member arcname : string)
  : Res unit * FS :=
  match open_w fs zip_filename with
  | Raise e => (Raise e, fs)
  | Ok _ =>
      match read_file fs member with
      | Raise e => (Raise e, <[zip_filename := File (zip_deflated [])]> fs)
      | Ok data =>
          (Ok tt,
           <[zip_filename := File (zip_deflated [(arcname, data)])]> fs)
      end
  end.

(** [p.unlink()] *)
Definition unlink (fs : FS) (p : string) : Res FS :=
  match fs !! p with
  | Some (File _) => Ok (delete p fs)
  | Some Dir =>
      Raise (mkExn IsADirectoryError ("[Errno 21] Is a directory: " +:+ p))
  | None =>
      Raise (mkExn FileNotFoundError
               ("[Errno 2] No such file or directory: " +:+ p))
  end.

Definition pyc_filename : string := "image_processor.pyc".

(** Lines 8-45: the outcome, the file system left behind and the lines
    printed. *)
Definition build_assets (input_py output_dir : string) (fs : FS)
  : Outcome * FS * list string :=
  let input_path := resolve input_py in
  let output_path := resolve output_dir in
  if negb (path_exists fs input_path) then
    (Exit 1, fs,
     ["Error: Input file " +:+ input_path +:+ " does not exist"])
  else
    match makedirs fs output_path with
    | Raise e => (Uncaught e, fs, [])
    | Ok fs =>
        let temp_pyc := joinpath output_path pyc_filename in
        let out :=
          ["Compiling " +:+ input_path +:+ " -> " +:+ temp_pyc +:+ "..."] in
        match py_compile fs input_path temp_pyc with
        | Raise e =>
            (Exit 1, fs,
             (out ++ ["Compilation failed: " +:+ exn_str e])%list)
        | Ok fs =>
            let zip_filename := joinpath output_path "app_modules.zip" in
            let out :=
              (out ++ ["Creating " +:+ zip_filename +:+ "..."])%list in
            match zip_write fs zip_filename temp_pyc pyc_filename with
            | (Raise e, fs) => (Uncaught e, fs, out)
            | (Ok _, fs) =>
                let done :=
                  (out ++ ["Success! Created app_modules.zip"])%list in
                if path_exists fs temp_pyc then
                  match unlink fs temp_pyc with
                  | Raise e => (Uncaught e, fs, out)
                  | Ok fs => (Returned, fs, done)
                  end
                else (Returned, fs, done)
            end
        end
    end.

(** Lines 47-52: the command line. *)
Definition main (argv : list string) (fs : FS)
  : Outcome * FS * list string :=
  match argv with
  | [_; input_py; output_dir] => build_assets input_py output_dir fs
  | _ =>
      (Exit 1, fs,
       ["Usage: python build_assets.py <input_py_file> <output_dir>"])
  end.

End Script.

(** ** Tools to run the script *)

Module Sample.

(** Paths are taken as already resolved; a source that starts with an
    exclamation mark does not compile. *)
#[export] Instance tools : Tools := {|
  resolve p := p;
  source_to_code source :=
    if starts_with "!" source then
      Raise (mkExn PyCompileError "SyntaxError: invalid syntax")
    else Ok ("pyc " +:+ source);
  zip_deflated entries :=
    fold_left (fun acc e => acc +:+ " " +:+ fst e +:+ "=" +:+ snd e)
              entries "zip"
|}.

Definition fs0 : FS :=
  <["/src/process.py" := File "import os"]>
  (<["/src/broken.py" := File "!"]> ∅).

End Sample.

End BuildAssets.

(* ===================================================================== *)
(** * The terms of the properties *)
(* ===================================================================== *)

Import Process.
Import BuildAssets.
Local Open Scope py_scope.

Section ProcessTerms.
Context `{PIL : Imaging} `{HOST : Host}.

(** The processor's state after [_get_font] has been called with each of
    [sizes] in turn, whatever each call returned or raised. *)
Definition get_font_calls (sizes : list Z) (st : St) : St :=
  fold_left (fun st sz => snd (_get_font sz st)) sizes st.

Definition cache_size (st : St) : nat := size (_font_cache (self st)).

(** A computation that leaves files, descriptors and clock alone: it may
    only change the processor and the record of raised exceptions. *)
Definition keeps_world {A} (m : M A) : Prop :=
  forall st r st', m st = (r, st') ->
    fs (world st') = fs (world st) /\
    fds (world st') = fds (world st) /\
    ticks (world st') = ticks (world st).

(** A computation whose exception, when it raises one, is the one a
    library call raised last. *)
Definition logs_raise {A} (m : M A) : Prop :=
  forall st e st', m st = (Raise e, st') ->
    last (raised (world st')) = Some e.

(** The first font file of [fps] that loads at size [sz]. *)
Fixpoint first_loadable (fps : list string) (sz : Z) : option Font :=
  match fps with
  | [] => None
  | fp :: rest =>
      match ImageFont_truetype fp sz with
      | Ok font => Some font
      | Raise _ => first_loadable rest sz
      end
  end.

(** The font the library gives for size [sz]: the first font file that
    loads, the default font when none does. *)
Definition font_for (sz : Z) : Res Font :=
  match first_loadable font_paths sz with
  | Some font => Ok font
  | None => ImageFont_load_default
  end.

(** Every cached font is the font the library gives for its size. *)
Definition cache_sound (self : ImageProcessor) : Prop :=
  forall sz font, _font_cache self !! sz = Some font -> font_for sz = Ok font.

(** A computation that keeps a property of the processor. *)
Definition preserves {A} (P : ImageProcessor -> Prop) (m : M A) : Prop :=
  forall st r st', m st = (r, st') -> P (self st) -> P (self st').

(** The module after it has answered each of [requests] in turn. *)
Definition serve (requests : list string) (g : Glob) : Glob :=
  fold_left (fun g input_json => snd (process_image_json input_json g))
            requests g.

(** One shadow copy of the text, at offset [off] from (x, y). *)
Definition draw_copy (font : Font) (x y : Z) (img : Image) (off : Z * Z)
  : M Image :=
  lib (draw_text img (x + fst off, y + snd off) text font (0, 0, 0)).

End ProcessTerms.

(** The extension that [_validate_input] tests. *)
Definition extension (p : string) : string := lower (path_suffix p).

(** The verdict on a string path, read off the file system. *)
Definition verdict (fs : FS) (p : string) : bool * string :=
  if String.eqb p "" then (false, "Empty path")
  else match fs !! p with
       | None => (false, "File not found: " +:+ p)
       | Some Dir => (false, "Not a file: " +:+ p)
       | Some (File _) =>
           if bool_decide (extension p ∈ SUPPORTED_FORMATS) then (true, "")
           else (false, "Unsupported format: " +:+ extension p)
       end.

(** The first character tells the four validation messages apart. *)
Definition first_char (s : string) : option ascii :=
  match s with
  | String a _ => Some a
  | EmptyString => None
  end.

(** Every character of [s] satisfies [P]. *)
Fixpoint all_chars (P : ascii -> bool) (s : string) : bool :=
  match s with
  | EmptyString => true
  | String a rest => P a && all_chars P rest
  end.

Definition is_digit (a : ascii) : bool :=
  let n := nat_of_ascii a in ((48 <=? n) && (n <=? 57))%nat.

Definition not_slash (a : ascii) : bool := negb (Ascii.eqb a "/").

(** The shape YYYYMMDD_HHMMSS_ffffff: eight digits, six digits and six
    digits, joined by underscores. *)
Definition timestamp_shape (ts : string) : Prop :=
  exists date time micro : string,
    ts = date +:+ "_" +:+ time +:+ "_" +:+ micro /\
    String.length date = 8%nat /\ String.length time = 6%nat /\
    String.length micro = 6%nat /\
    all_chars is_digit date = true /\ all_chars is_digit time = true /\
    all_chars is_digit micro = true.

(** [r["status"]] and [r["output_image_path"]] of a result. *)
Definition status (r : PyVal) : PyVal :=
  match r with PDict items => dict_get items "status" | _ => PNone end.

Definition output_image_path (r : PyVal) : PyVal :=
  match r with
  | PDict items => dict_get items "output_image_path"
  | _ => PNone
  end.

(** C1, as the spec states it: whatever the file system holds, a path
    with an unsupported extension is answered with the unsupported-format
    error. *)
Definition unsupported_format_regardless : Prop :=
  forall (PIL : Imaging) (HOST : Host) (st : St) (p : string) (dir : PyVal),
    extension p ∉ SUPPORTED_FORMATS ->
    fst (process (PStr p) dir st) =
    Ok (error_result ("Unsupported format: " +:+ extension p)).

(** C3, as the spec states it: an input that fails validation is answered
    with the message of that failure. *)
Definition validation_failure_always_reported : Prop :=
  forall (PIL : Imaging) (HOST : Host) (st st' : St) (path dir : PyVal)
         (err : string),
    _validate_input path st = (Ok (false, err), st') ->
    fst (process path dir st) = Ok (error_result err).

(** C4, as the spec states it: in a run that starts with nothing raised,
    every exception that the imaging library or file I/O raises is the one
    the result reports. *)
Definition every_raised_exception_reported : Prop :=
  forall (PIL : Imaging) (HOST : Host) (st st' : St) (input dir : PyVal)
         (r : Res PyVal) (e : Exn),
    raised (world st) = [] ->
    process input dir st = (r, st') ->
    e ∈ raised (world st') ->
    r = Ok (failure_result e).

(** C9, as the claim states it: whatever JSON object the input parses to,
    [process_image_json] returns and does not raise. *)
Definition process_image_json_never_raises : Prop :=
  forall (PIL : Imaging) (HOST : Host) (input_json : string)
         (items : list (string * PyVal)) (g : Glob),
    json_loads input_json = Ok (PDict items) ->
    exists out, fst (process_image_json input_json g) = Ok out.

(** The offsets at which the shadow is drawn for [shadow_off = s], in the
    order of the two loops. *)
Definition shadow_offsets (s : Z) : list (Z * Z) :=
  flat_map
    (fun ox =>
       flat_map
         (fun oy =>
            if negb (Z.eqb ox 0) || negb (Z.eqb oy 0) then [(ox, oy)] else [])
         (range (- s) (s + 1)))
    (range (- s) (s + 1)).

(** A truthy value that [os.stat] does not take for a path. *)
Definition not_a_path (v : PyVal) : bool :=
  match v with
  | PList (_ :: _) | PDict (_ :: _) => true
  | PFloat _ => truthy v
  | _ => false
  end.



Section PackagingTerms.
Context `{TOOLS : Tools}.

(** The two files the script names in the output directory. *)
Definition pyc_path (output_dir : string) : string :=
  joinpath (resolve output_dir) pyc_filename.

Definition zip_path (output_dir : string) : string :=
  joinpath (resolve output_dir) "app_modules.zip".

(** The five ways a run ends. *)
Inductive Ending (input_py output_dir : string) (fs : FS)
  : Outcome * FS * list string -> Prop :=
| no_input :
    fs !! resolve input_py = None ->
    Ending input_py output_dir fs
      (Exit 1, fs,
       ["Error: Input file " +:+ resolve input_py +:+ " does not exist"])
| no_directory e :
    is_Some (fs !! resolve input_py) ->
    makedirs fs (resolve output_dir) = Raise e ->
    Ending input_py output_dir fs (Uncaught e, fs, [])
| no_byte_code fs1 e :
    is_Some (fs !! resolve input_py) ->
    makedirs fs (resolve output_dir) = Ok fs1 ->
    py_compile fs1 (resolve input_py) (pyc_path output_dir) = Raise e ->
    Ending input_py output_dir fs
      (Exit 1, fs1,
       [ "Compiling " +:+ resolve input_py +:+ " -> " +:+
           pyc_path output_dir +:+ "...";
         "Compilation failed: " +:+ exn_str e ])
| no_archive fs1 source code :
    fs !! resolve input_py = Some (File source) ->
    source_to_code source = Ok code ->
    makedirs fs (resolve output_dir) = Ok fs1 ->
    fs1 !! pyc_path output_dir <> Some Dir ->
    fs1 !! zip_path output_dir = Some Dir ->
    Ending input_py output_dir fs
      (Uncaught (mkExn IsADirectoryError
                   ("[Errno 21] Is a directory: " +:+ zip_path output_dir)),
       <[pyc_path output_dir := File code]> fs1,
       [ "Compiling " +:+ resolve input_py +:+ " -> " +:+
           pyc_path output_dir +:+ "...";
         "Creating " +:+ zip_path output_dir +:+ "..." ])
| packaged fs1 source code :
    fs !! resolve input_py = Some (File source) ->
    source_to_code source = Ok code ->
    makedirs fs (resolve output_dir) = Ok fs1 ->
    fs1 !! pyc_path output_dir <> Some Dir ->
    fs1 !! zip_path output_dir <> Some Dir ->
    Ending input_py output_dir fs
      (Returned,
       delete (pyc_path output_dir)
         (<[zip_path output_dir :=
              File (zip_deflated [(pyc_filename, code)])]>
            (<[pyc_path output_dir := File code]> fs1)),
       [ "Compiling " +:+ resolve input_py +:+ " -> " +:+
           pyc_path output_dir +:+ "...";
         "Creating " +:+ zip_path output_dir +:+ "...";
         "Success! Created app_modules.zip" ]).

End PackagingTerms.

(* ===================================================================== *)
(** * The helpers on examples of paths and dates *)
(* ===================================================================== *)

Example path_suffix_upper : path_suffix "a//b.Png" = ".Png".
Proof. reflexivity. Qed.

Example path_suffix_hidden : path_suffix ".png" = "".
Proof. reflexivity. Qed.

Example path_suffix_dot : path_suffix "a/b.png/." = ".png".
Proof. reflexivity. Qed.

Example path_stem_two : path_stem "a.b.png" = "a.b".
Proof. reflexivity. Qed.

Example path_stem_dots : path_stem "...png" = "..".
Proof. reflexivity. Qed.

Example path_name_root : path_name "/" = "".
Proof. reflexivity. Qed.

Example lower_txt : lower "a.TXT" = "a.txt".
Proof. reflexivity. Qed.

Example join_plain : os_path_join "a" "x" = "a/x".
Proof. reflexivity. Qed.

Example join_slash : os_path_join "a/" "x" = "a/x".
Proof. reflexivity. Qed.

Example join_empty : os_path_join "" "x" = "x".
Proof. reflexivity. Qed.

Example strftime_ex :
  strftime (mkDateTime 2024 1 2 3 4 5 6) = "20240102_030405_000006".
Proof. reflexivity. Qed.
Example isoformat_ex :
  isoformat (mkDateTime 2024 1 2 3 4 5 7) = "2024-01-02T03:04:05.000007".
Proof. reflexivity. Qed.

(* ===================================================================== *)
(** * Properties of process.py *)
(* ===================================================================== *)

Section MonadFacts.
Context `{PIL : Imaging} `{HOST : Host}.

Lemma bind_Ok {A B} (m : M A) (k : A -> M B) st b st' :
  bind m k st = (Ok b, st') ->
  exists a st1, m st = (Ok a, st1) /\ k a st1 = (Ok b, st').
Proof.
  unfold bind. destruct (m st) as [[a|e] st1]; intros H.
  - eauto.
  - discriminate.
Qed.

Lemma bind_Raise {A B} (m : M A) (k : A -> M B) st e st' :
  bind m k st = (Raise e, st') ->
  m st = (Raise e, st') \/
  exists a st1, m st = (Ok a, st1) /\ k a st1 = (Raise e, st').
Proof.
  unfold bind. destruct (m st) as [[a|e'] st1]; intros H.
  - right. eauto.
  - left. inversion H; subst. reflexivity.
Qed.

Lemma lib_Ok {A} (r : Res A) st a st' :
  lib r st = (Ok a, st') -> r = Ok a /\ st' = st.
Proof. unfold lib. destruct r; intros H; inversion H; auto. Qed.

Lemma lib_fs_Ok {A} (f : FS -> FDs -> Res A) st a st' :
  lib_fs f st = (Ok a, st') ->
  f (fs (world st)) (fds (world st)) = Ok a /\ st' = st.
Proof. unfold lib_fs. apply lib_Ok. Qed.

Lemma ret_Ok {A} (a b : A) st st' :
  ret a st = (Ok b, st') -> b = a /\ st' = st.
Proof. unfold ret. intros H; inversion H; auto. Qed.

Lemma try_except_Ok {A} (m : M A) (h : Exn -> M A) st a st' :
  try_except m h st = (Ok a, st') ->
  m st = (Ok a, st') \/
  exists e st1, m st = (Raise e, st1) /\ h e st1 = (Ok a, st').
Proof.
  unfold try_except. destruct (m st) as [[x|e] st1]; intros H.
  - left. exact H.
  - right. eauto.
Qed.

End MonadFacts.

Section FontCache.
Context `{PIL : Imaging} `{HOST : Host}.

Lemma log_raised_self e st : self (log_raised e st) = self st.
Proof. reflexivity. Qed.

(** Trying the font files never touches the processor. *)
Lemma try_truetype_self fps sz st :
  self (snd (try_truetype fps sz st)) = self st.
Proof.
  revert st. induction fps as [|fp rest IH]; intros st; simpl.
  - reflexivity.
  - unfold try_except, bind, lib.
    destruct (ImageFont_truetype fp sz) as [font|e]; simpl.
    + reflexivity.
    + rewrite IH. reflexivity.
Qed.

(** Trying the font files never raises. *)
Lemma try_truetype_never_raises fps sz st :
  exists found, fst (try_truetype fps sz st) = Ok found.
Proof.
  revert st. induction fps as [|fp rest IH]; intros st; simpl.
  - eexists. reflexivity.
  - unfold try_except, bind, lib.
    destruct (ImageFont_truetype fp sz) as [font|e]; simpl.
    + eexists. reflexivity.
    + apply IH.
Qed.

(** What a call leaves in the cache: nothing new on a hit or when no font
    could be loaded; otherwise the font, alone if the cache held more than
    10 entries. *)
Lemma _get_font_cache sz st r st' :
  _get_font sz st = (r, st') ->
  let cache := _font_cache (self st) in
  _font_cache (self st') = cache \/
  exists font,
    cache !! sz = None /\ r = Ok font /\
    _font_cache (self st') =
      <[sz := font]> (if (10 <? size cache)%nat then ∅ else cache).
Proof.
  simpl. unfold _get_font.
  destruct (_font_cache (self st) !! sz) as [font|] eqn:Hhit; intros Hcall.
  - left. inversion Hcall; subst. reflexivity.
  - unfold bind at 1 in Hcall.
    pose proof (try_truetype_self font_paths sz st) as Hself.
    destruct (try_truetype font_paths sz st) as [[found|e] st1];
      simpl in Hself.
    + unfold bind at 1 in Hcall.
      assert (Hload : forall r2 st2,
        match found with
        | Some font => ret font
        | None => lib ImageFont_load_default
        end st1 = (r2, st2) -> self st2 = self st).
      { intros r2 st2. destruct found; simpl.
        - unfold ret. intros H; inversion H; subst. exact Hself.
        - unfold lib. destruct ImageFont_load_default;
            intros H; inversion H; subst; exact Hself. }
      destruct (match found with
                | Some font => ret font
                | None => lib ImageFont_load_default
                end st1) as [[font|e] st2] eqn:Hfont.
      * specialize (Hload _ _ eq_refl).
        unfold bind, cache_store, ret in Hcall. inversion Hcall; subst.
        right. exists font. simpl. rewrite Hload. auto.
      * specialize (Hload _ _ eq_refl).
        inversion Hcall; subst. left. rewrite Hload. reflexivity.
    + inversion Hcall; subst. left. rewrite Hself. reflexivity.
Qed.

Lemma _get_font_cache_bound sz st :
  (cache_size st <= 11)%nat ->
  (cache_size (snd (_get_font sz st)) <= 11)%nat.
Proof.
  unfold cache_size. intros Hle.
  destruct (_get_font sz st) as [r st'] eqn:Hcall; simpl.
  destruct (_get_font_cache _ _ _ _ Hcall) as [->|(font & Hmiss & _ & ->)];
    [exact Hle|].
  destruct (10 <? size (_font_cache (self st)))%nat eqn:Hfull.
  - rewrite insert_empty, map_size_singleton. lia.
  - apply Nat.ltb_ge in Hfull.
    rewrite map_size_insert_None by exact Hmiss. lia.
Qed.

Lemma get_font_calls_bound sizes st :
  (cache_size st <= 11)%nat ->
  (cache_size (get_font_calls sizes st) <= 11)%nat.
Proof.
  revert st. induction sizes as [|sz rest IH]; intros st Hle; simpl.
  - exact Hle.
  - apply IH, _get_font_cache_bound, Hle.
Qed.

(** C2. Starting from a new processor, however many calls of [_get_font]
    are made and with whatever sizes, the font cache never holds more than
    11 fonts: the cap of 10 plus the one font stored after the check. And a
    call that loads a font while the cache holds more than 10 clears the
    cache before storing it, so that the font is its only entry. *)
Theorem font_cache_bounded :
  (forall (sizes : list Z) (w : World),
     (cache_size (get_font_calls sizes (mkSt __init__ w)) <= 11)%nat) /\
  (forall (sz : Z) (st st' : St) (font : Font),
     (10 < cache_size st)%nat ->
     _font_cache (self st) !! sz = None ->
     _get_font sz st = (Ok font, st') ->
     _font_cache (self st') = {[ sz := font ]}).
Proof.
  split.
  - intros sizes w. apply get_font_calls_bound.
    unfold cache_size; simpl. rewrite map_size_empty. lia.
  - intros sz st st' font Hfull Hmiss Hcall.
    destruct (_get_font_cache _ _ _ _ Hcall)
      as [Hsame|(font' & _ & Hfont & Hnew)].
    + exfalso. unfold _get_font in Hcall. rewrite Hmiss in Hcall.
      apply bind_Ok in Hcall as (found & st1 & Htry & Hcall).
      apply bind_Ok in Hcall as (font1 & st2 & Hload & Hcall).
      apply bind_Ok in Hcall as ([] & st3 & Hstore & Hret).
      apply ret_Ok in Hret as [-> ->].
      unfold cache_store in Hstore. inversion Hstore; subst; simpl in *.
      assert (Hlook : _font_cache (self st) !! sz = Some font1).
      { rewrite <- Hsame. apply lookup_insert_eq. }
      rewrite Hmiss in Hlook. discriminate.
    + inversion Hfont; subst font'.
      rewrite Hnew. unfold cache_size in Hfull.
      apply Nat.ltb_lt in Hfull. rewrite Hfull. apply insert_empty.
Qed.

End FontCache.

Section Validation.
Context `{PIL : Imaging} `{HOST : Host}.

(** On a string, validation never raises and changes nothing. *)
Lemma _validate_input_str p st :
  _validate_input (PStr p) st = (Ok (verdict (fs (world st)) p), st).
Proof.
  unfold _validate_input, verdict; simpl.
  destruct (String.eqb p "") eqn:Hempty; simpl; [reflexivity|].
  unfold bind, lib_fs, lib, os_path_exists, os_path_isfile; simpl.
  destruct (fs (world st) !! p) as [[data|]|] eqn:Hnode; simpl;
    rewrite ?Hnode; simpl; try reflexivity.
  fold (extension p).
  destruct (bool_decide (extension p ∈ SUPPORTED_FORMATS)); reflexivity.
Qed.

(** Validation that returns has changed nothing, whatever the path is. *)
Lemma _validate_input_pure path st r st' :
  _validate_input path st = (Ok r, st') -> st' = st.
Proof.
  unfold _validate_input.
  destruct (negb (truthy path)).
  { intros H. apply ret_Ok in H as [_ ->]. reflexivity. }
  intros H. apply bind_Ok in H as (found & st1 & Hex & H).
  apply lib_fs_Ok in Hex as [_ ->].
  destruct (negb found).
  { apply ret_Ok in H as [_ ->]. reflexivity. }
  apply bind_Ok in H as (regular & st2 & Hreg & H).
  apply lib_fs_Ok in Hreg as [_ ->].
  destruct (negb regular).
  { apply ret_Ok in H as [_ ->]. reflexivity. }
  apply bind_Ok in H as (p & st3 & Hp & H).
  apply lib_Ok in Hp as [_ ->].
  destruct (negb _); apply ret_Ok in H as [_ ->]; reflexivity.
Qed.

(** Lines 112-114, with Pillow imported. *)
Lemma process_invalid path dir st err st' :
  PIL_AVAILABLE = true ->
  _validate_input path st = (Ok (false, err), st') ->
  process path dir st = (Ok (error_result err), st).
Proof.
  intros Hpil Hval. pose proof (_validate_input_pure _ _ _ _ Hval) as ->.
  unfold process. rewrite Hpil; simpl.
  unfold bind. rewrite Hval. reflexivity.
Qed.

(** Lines 106-110, with Pillow missing. *)
Lemma process_without_pillow path dir st :
  PIL_AVAILABLE = false ->
  process path dir st =
  (Ok (error_result ("Pillow not available: " +:+ py_str PIL_ERROR)), st).
Proof. intros Hpil. unfold process. rewrite Hpil. reflexivity. Qed.

Lemma process_invalid_str p dir st err :
  PIL_AVAILABLE = true ->
  verdict (fs (world st)) p = (false, err) ->
  process (PStr p) dir st = (Ok (error_result err), st).
Proof.
  intros Hpil Hv. apply process_invalid with (st' := st); [exact Hpil|].
  rewrite _validate_input_str, Hv. reflexivity.
Qed.

End Validation.

(** C1, counterexample: "missing.txt" does not exist; the answer is
    "File not found: missing.txt", since the extension is looked at only
    after the path was found to be an existing regular file. *)
Lemma unsupported_format_of_missing_file :
  (extension "missing.txt" ∉ SUPPORTED_FORMATS) /\
  fst (@process Demo.sym_imaging Demo.host_ok
         (PStr "missing.txt") PNone Demo.st0) =
  Ok (error_result "File not found: missing.txt") /\
  ~ unsupported_format_regardless.
Proof.
  assert (Hext : extension "missing.txt" ∉ SUPPORTED_FORMATS).
  { apply (bool_decide_unpack _). vm_compute. exact I. }
  split; [exact Hext|]. split; [vm_compute; reflexivity|].
  intros Hclaim.
  specialize (Hclaim Demo.sym_imaging Demo.host_ok Demo.st0
                "missing.txt" PNone Hext).
  vm_compute in Hclaim. discriminate.
Qed.

(** C1, amended. With Pillow imported, a path that names an existing
    regular file and has an unsupported extension is answered with the
    error "Unsupported format: " followed by the lowercased extension;
    nothing is raised and nothing changes. *)
Theorem unsupported_format_reported `{PIL : Imaging} `{HOST : Host}
    (st : St) (p data : string) (dir : PyVal) :
  PIL_AVAILABLE = true ->
  p <> "" ->
  fs (world st) !! p = Some (File data) ->
  extension p ∉ SUPPORTED_FORMATS ->
  process (PStr p) dir st =
  (Ok (error_result ("Unsupported format: " +:+ extension p)), st).
Proof.
  intros Hpil Hne Hfile Hext. apply process_invalid_str; [exact Hpil|].
  unfold verdict. apply String.eqb_neq in Hne. rewrite Hne, Hfile.
  rewrite bool_decide_eq_false_2 by exact Hext. reflexivity.
Qed.

Lemma unsupported_format_reported_witness :
  @process Demo.sym_imaging Demo.host_ok (PStr "/in/notes.txt") PNone Demo.st0
  = (Ok (error_result "Unsupported format: .txt"), Demo.st0).
Proof.
  apply (@unsupported_format_reported Demo.sym_imaging Demo.host_ok
           Demo.st0 "/in/notes.txt" "hello" PNone).
  - reflexivity.
  - discriminate.
  - vm_compute. reflexivity.
  - apply (bool_decide_unpack _). vm_compute. exact I.
Defined.

Lemma validation_messages_distinct (p q ext : string) :
  let empty := "Empty path" in
  let missing := "File not found: " +:+ p in
  let not_file := "Not a file: " +:+ q in
  let unsupported := "Unsupported format: " +:+ ext in
  empty <> missing /\ empty <> not_file /\ empty <> unsupported /\
  missing <> not_file /\ missing <> unsupported /\ not_file <> unsupported.
Proof.
  simpl. repeat split; intros H; apply (f_equal first_char) in H;
    vm_compute in H; discriminate.
Qed.

(** C3, counterexample: where importing Pillow failed, the guard of lines
    106-110 answers before the path is validated; the path that does not
    exist is answered with "Pillow not available: ...". *)
Lemma validation_failure_without_pillow :
  @_validate_input Demo.sym_imaging Demo.host_no_pil
     (PStr "/nowhere.png") Demo.st0 =
  (Ok (false, "File not found: /nowhere.png"), Demo.st0) /\
  fst (@process Demo.sym_imaging Demo.host_no_pil
         (PStr "/nowhere.png") PNone Demo.st0) =
  Ok (error_result "Pillow not available: No module named 'PIL'") /\
  ~ validation_failure_always_reported.
Proof.
  assert (Hval : @_validate_input Demo.sym_imaging Demo.host_no_pil
                   (PStr "/nowhere.png") Demo.st0 =
                 (Ok (false, "File not found: /nowhere.png"), Demo.st0)).
  { rewrite _validate_input_str. vm_compute. reflexivity. }
  split; [exact Hval|]. split; [vm_compute; reflexivity|].
  intros Hclaim.
  specialize (Hclaim Demo.sym_imaging Demo.host_no_pil _ _ _ PNone _ Hval).
  vm_compute in Hclaim. discriminate.
Qed.

(** C3, amended. With Pillow imported, every input that fails validation
    is answered with status "error" and the message of its failure, nothing
    is raised and the state is left as it was, so no file is written. The
    messages are "Empty path" for the empty path, "File not found: p" for a
    path that does not exist, "Not a file: p" for a directory and
    "Unsupported format: ext" for a regular file with an unsupported
    extension, and no two of them are equal. *)
Theorem validation_failure_reported `{PIL : Imaging} `{HOST : Host}
    (st : St) (dir : PyVal) :
  PIL_AVAILABLE = true ->
  (forall (path : PyVal) (err : string) (st' : St),
     _validate_input path st = (Ok (false, err), st') ->
     process path dir st = (Ok (error_result err), st)) /\
  process (PStr "") dir st = (Ok (error_result "Empty path"), st) /\
  (forall p : string,
     p <> "" -> fs (world st) !! p = None ->
     process (PStr p) dir st =
     (Ok (error_result ("File not found: " +:+ p)), st)) /\
  (forall p : string,
     p <> "" -> fs (world st) !! p = Some Dir ->
     process (PStr p) dir st =
     (Ok (error_result ("Not a file: " +:+ p)), st)) /\
  (forall p data : string,
     p <> "" -> fs (world st) !! p = Some (File data) ->
     extension p ∉ SUPPORTED_FORMATS ->
     process (PStr p) dir st =
     (Ok (error_result ("Unsupported format: " +:+ extension p)), st)) /\
  (forall p q ext : string,
     "Empty path" <> "File not found: " +:+ p /\
     "Empty path" <> "Not a file: " +:+ q /\
     "Empty path" <> "Unsupported format: " +:+ ext /\
     "File not found: " +:+ p <> "Not a file: " +:+ q /\
     "File not found: " +:+ p <> "Unsupported format: " +:+ ext /\
     "Not a file: " +:+ q <> "Unsupported format: " +:+ ext).
Proof.
  intros Hpil. repeat apply conj.
  - intros path err st' Hval. eapply process_invalid; eauto.
  - apply process_invalid_str; [exact Hpil|reflexivity].
  - intros p Hne Hnone. apply process_invalid_str; [exact Hpil|].
    unfold verdict. apply String.eqb_neq in Hne. rewrite Hne, Hnone.
    reflexivity.
  - intros p Hne Hdir. apply process_invalid_str; [exact Hpil|].
    unfold verdict. apply String.eqb_neq in Hne. rewrite Hne, Hdir.
    reflexivity.
  - intros p data Hne Hfile Hext. apply process_invalid_str; [exact Hpil|].
    unfold verdict. apply String.eqb_neq in Hne. rewrite Hne, Hfile.
    rewrite bool_decide_eq_false_2 by exact Hext. reflexivity.
  - intros p q ext. apply validation_messages_distinct.
Qed.

Lemma validation_failure_reported_witness :
  @process Demo.sym_imaging Demo.host_ok (PStr "/nowhere.png") PNone Demo.st0
  = (Ok (error_result "File not found: /nowhere.png"), Demo.st0) /\
  @process Demo.sym_imaging Demo.host_ok (PStr "/in/dir.png") PNone Demo.st0
  = (Ok (error_result "Not a file: /in/dir.png"), Demo.st0).
Proof.
  pose proof (@validation_failure_reported Demo.sym_imaging Demo.host_ok
                Demo.st0 PNone eq_refl) as (_ & _ & Hmissing & Hdir & _).
  split.
  - apply Hmissing; [discriminate|vm_compute; reflexivity].
  - apply Hdir; [discriminate|vm_compute; reflexivity].
Defined.

Section Frames.
Context `{PIL : Imaging} `{HOST : Host}.

Lemma keeps_world_ret {A} (a : A) : keeps_world (ret a).
Proof. intros st r st' H. inversion H; subst. auto. Qed.

Lemma keeps_world_lib {A} (r : Res A) : keeps_world (lib r).
Proof.
  intros st r' st' H. unfold lib in H.
  destruct r; inversion H; subst; simpl; auto.
Qed.

Lemma keeps_world_lib_fs {A} (f : FS -> FDs -> Res A) :
  keeps_world (lib_fs f).
Proof. intros st r st' H. exact (keeps_world_lib _ _ _ _ H). Qed.

Lemma keeps_world_bind {A B} (m : M A) (k : A -> M B) :
  keeps_world m -> (forall a, keeps_world (k a)) -> keeps_world (bind m k).
Proof.
  intros Hm Hk st r st' H. unfold bind in H.
  destruct (m st) as [[a|e] st1] eqn:Hrun.
  - destruct (Hm _ _ _ Hrun) as (H1 & H2 & H3).
    destruct (Hk a _ _ _ H) as (K1 & K2 & K3).
    repeat split; congruence.
  - inversion H; subst. exact (Hm _ _ _ Hrun).
Qed.

Lemma keeps_world_try_except {A} (m : M A) (h : Exn -> M A) :
  keeps_world m -> (forall e, keeps_world (h e)) ->
  keeps_world (try_except m h).
Proof.
  intros Hm Hh st r st' H. unfold try_except in H.
  destruct (m st) as [[a|e] st1] eqn:Hrun.
  - inversion H; subst. exact (Hm _ _ _ Hrun).
  - destruct (Hm _ _ _ Hrun) as (H1 & H2 & H3).
    destruct (Hh e _ _ _ H) as (K1 & K2 & K3).
    repeat split; congruence.
Qed.

Lemma keeps_world_for_each {A B} (f : A -> B -> M A) (l : list B) (a : A) :
  (forall a b, keeps_world (f a b)) -> keeps_world (for_each f l a).
Proof.
  intros Hf. revert a. induction l as [|b rest IH]; intros a; simpl.
  - apply keeps_world_ret.
  - apply keeps_world_bind; [apply Hf|exact IH].
Qed.

Lemma logs_raise_ret {A} (a : A) : logs_raise (ret a).
Proof. intros st e st' H. inversion H. Qed.

Lemma logs_raise_lib {A} (r : Res A) : logs_raise (lib r).
Proof.
  intros st e st' H. unfold lib in H.
  destruct r; inversion H; subst; simpl. apply last_snoc.
Qed.

Lemma logs_raise_lib_fs {A} (f : FS -> FDs -> Res A) : logs_raise (lib_fs f).
Proof. intros st e st' H. exact (logs_raise_lib _ _ _ _ H). Qed.

Lemma logs_raise_bind {A B} (m : M A) (k : A -> M B) :
  logs_raise m -> (forall a, logs_raise (k a)) -> logs_raise (bind m k).
Proof.
  intros Hm Hk st e st' H.
  apply bind_Raise in H as [H|(a & st1 & _ & H)].
  - exact (Hm _ _ _ H).
  - exact (Hk a _ _ _ H).
Qed.

Lemma logs_raise_try_except {A} (m : M A) (h : Exn -> M A) :
  (forall e, logs_raise (h e)) -> logs_raise (try_except m h).
Proof.
  intros Hh st e st' H. unfold try_except in H.
  destruct (m st) as [[a|e1] st1].
  - inversion H.
  - exact (Hh e1 _ _ _ H).
Qed.

Lemma logs_raise_for_each {A B} (f : A -> B -> M A) (l : list B) (a : A) :
  (forall a b, logs_raise (f a b)) -> logs_raise (for_each f l a).
Proof.
  intros Hf. revert a. induction l as [|b rest IH]; intros a; simpl.
  - apply logs_raise_ret.
  - apply logs_raise_bind; [apply Hf|exact IH].
Qed.

Lemma keeps_world_set_cache sz font : keeps_world (cache_store sz font).
Proof. intros st r st' H. inversion H; subst. auto. Qed.

Lemma logs_raise_set_cache sz font : logs_raise (cache_store sz font).
Proof. intros st e st' H. inversion H. Qed.

Lemma logs_raise_set_fs fs' : logs_raise (set_fs fs').
Proof. intros st e st' H. inversion H. Qed.

Lemma logs_raise_datetime_now : logs_raise datetime_now.
Proof. intros st e st' H. inversion H. Qed.

End Frames.

Create HintDb frame.
#[export] Hint Resolve keeps_world_ret keeps_world_lib keeps_world_lib_fs
  keeps_world_set_cache : frame.
#[export] Hint Resolve logs_raise_ret logs_raise_lib logs_raise_lib_fs
  logs_raise_set_cache logs_raise_set_fs logs_raise_datetime_now : frame.

(** Walks down a chain of binds, branching with the program. *)
Ltac frame_step :=
  first
    [ apply keeps_world_bind; [|intros ?]
    | apply logs_raise_bind; [|intros ?]
    | apply keeps_world_try_except; [|intros ?]
    | apply logs_raise_try_except; intros ?
    | apply keeps_world_for_each; intros ? ?
    | apply logs_raise_for_each; intros ? ?
    | solve [auto with frame]
    | match goal with
      | |- context [if ?b then _ else _] => destruct b
      | |- context [match ?x with Some _ => _ | None => _ end] => destruct x
      | |- context [let '(_, _) := ?x in _] => destruct x
      end ].

Ltac frame := repeat frame_step.

Section Steps.
Context `{PIL : Imaging} `{HOST : Host}.

Lemma keeps_world_try_truetype fps sz : keeps_world (try_truetype fps sz).
Proof. induction fps as [|fp rest IH]; simpl; frame. Qed.

Lemma logs_raise_try_truetype fps sz : logs_raise (try_truetype fps sz).
Proof. induction fps as [|fp rest IH]; simpl; frame. Qed.

Lemma keeps_world__get_font sz : keeps_world (_get_font sz).
Proof.
  intros st r st' H. unfold _get_font in H.
  destruct (_font_cache (self st) !! sz).
  - inversion H; subst. auto.
  - revert st r st' H.
    change (keeps_world
      (found <~ try_truetype font_paths sz ;;
       font <~ match found with
               | Some font => ret font
               | None => lib ImageFont_load_default
               end ;;
       cache_store sz font ;;; ret font)).
    frame; apply keeps_world_try_truetype.
Qed.

Lemma logs_raise__get_font sz : logs_raise (_get_font sz).
Proof.
  intros st e st' H. unfold _get_font in H.
  destruct (_font_cache (self st) !! sz).
  - inversion H.
  - revert st e st' H.
    change (logs_raise
      (found <~ try_truetype font_paths sz ;;
       font <~ match found with
               | Some font => ret font
               | None => lib ImageFont_load_default
               end ;;
       cache_store sz font ;;; ret font)).
    frame; apply logs_raise_try_truetype.
Qed.

Lemma keeps_world_to_rgb img : keeps_world (to_rgb img).
Proof. unfold to_rgb. frame. Qed.

Lemma logs_raise_to_rgb img : logs_raise (to_rgb img).
Proof. unfold to_rgb. frame. Qed.

Lemma keeps_world_enhance img : keeps_world (enhance img).
Proof. unfold enhance. frame. Qed.

Lemma logs_raise_enhance img : logs_raise (enhance img).
Proof. unfold enhance. frame. Qed.

Lemma keeps_world_draw_label img : keeps_world (draw_label img).
Proof.
  unfold draw_label, draw_shadow. frame; apply keeps_world__get_font.
Qed.

Lemma logs_raise_draw_label img : logs_raise (draw_label img).
Proof.
  unfold draw_label, draw_shadow. frame; apply logs_raise__get_font.
Qed.

Lemma logs_raise__generate_output_path input dir :
  logs_raise (_generate_output_path input dir).
Proof. unfold _generate_output_path. frame. Qed.

Lemma logs_raise_img_save img path : logs_raise (img_save img path).
Proof.
  unfold img_save. frame; intros st e st' H; inversion H.
Qed.

Lemma logs_raise_process_body input dir :
  logs_raise (process_body input dir).
Proof.
  unfold process_body.
  frame; first [ apply logs_raise_to_rgb | apply logs_raise__get_font
               | intros st e st' H; inversion H ].
Qed.

End Steps.

(** C4, counterexample: on a host without the font files of [font_paths],
    [ImageFont.truetype] raises [OSError] twice while "/in/leaf.png" is
    processed; the bare [except] of [_get_font] swallows both, the default
    font is used and the result is a success. *)
Lemma font_loading_failure_not_reported :
  let run := @process Demo.sym_imaging Demo.host_ok
               (PStr "/in/leaf.png") (PStr "/out") Demo.st0 in
  let e := mkExn OSError "cannot open resource" in
  raised (world (snd run)) = [e; e] /\
  (exists items, fst run = Ok (PDict items) /\
                 dict_get items "status" = PStr "success") /\
  ~ every_raised_exception_reported.
Proof.
  simpl. split; [vm_compute; reflexivity|]. split.
  - eexists. split; vm_compute; reflexivity.
  - intros Hclaim.
    specialize (Hclaim Demo.sym_imaging Demo.host_ok Demo.st0
                  (snd (@process Demo.sym_imaging Demo.host_ok
                          (PStr "/in/leaf.png") (PStr "/out") Demo.st0))
                  (PStr "/in/leaf.png") (PStr "/out")
                  (fst (@process Demo.sym_imaging Demo.host_ok
                          (PStr "/in/leaf.png") (PStr "/out") Demo.st0))
                  (mkExn OSError "cannot open resource") eq_refl).
    specialize (Hclaim (surjective_pairing _)).
    assert (Hin : mkExn OSError "cannot open resource" ∈
                  raised (world (snd (@process Demo.sym_imaging Demo.host_ok
                    (PStr "/in/leaf.png") (PStr "/out") Demo.st0)))).
    { vm_compute. apply list_elem_of_here. }
    specialize (Hclaim Hin). vm_compute in Hclaim. discriminate.
Qed.

(** C4, amended. Once the input has passed validation, [process] never
    raises; and every exception that leaves the body of the [try] - any
    exception of the imaging library or of file I/O there, other than a
    font file of [font_paths] failing to load, which [_get_font] skips - is
    caught by the one handler of lines 215-220: the result has status
    "error", its error is "Processing failed: " followed by the exception's
    string form, its error_type is the exception's class name, and the
    exception is the one a library call raised last. *)
Theorem processing_failure_reported `{PIL : Imaging} `{HOST : Host}
    (st st1 : St) (input dir : PyVal) (err : string) :
  PIL_AVAILABLE = true ->
  _validate_input input st = (Ok (true, err), st1) ->
  (exists r, fst (process input dir st) = Ok r) /\
  (forall (e : Exn) (st2 : St),
     process_body input dir st1 = (Raise e, st2) ->
     process input dir st =
     (Ok (PDict [ ("status", PStr "error");
                  ("error", PStr ("Processing failed: " +:+ exn_str e));
                  ("error_type", PStr (class_name (exn_class e))) ]), st2) /\
     last (raised (world st2)) = Some e) /\
  (forall fps sz st0, exists found, fst (try_truetype fps sz st0) = Ok found).
Proof.
  intros Hpil Hval.
  assert (Hproc : process input dir st =
                  try_except (process_body input dir)
                             (fun e => ret (failure_result e)) st1).
  { unfold process. rewrite Hpil; simpl. unfold bind at 1.
    rewrite Hval. reflexivity. }
  repeat apply conj.
  - rewrite Hproc. unfold try_except.
    destruct (process_body input dir st1) as [[r|e] st2]; eexists;
      reflexivity.
  - intros e st2 Hbody. split.
    + rewrite Hproc. unfold try_except. rewrite Hbody. reflexivity.
    + exact (logs_raise_process_body _ _ _ _ _ Hbody).
  - intros fps sz st0. apply try_truetype_never_raises.
Qed.

Lemma processing_failure_reported_witness :
  @process Demo.sym_imaging Demo.host_ok
     (PStr "/in/empty.png") PNone Demo.st0 =
  (Ok (PDict [ ("status", PStr "error");
               ("error", PStr "Processing failed: cannot identify image file");
               ("error_type", PStr "UnidentifiedImageError") ]),
   log_raised (mkExn UnidentifiedImageError "cannot identify image file")
     Demo.st0).
Proof.
  pose proof (@processing_failure_reported Demo.sym_imaging Demo.host_ok
                Demo.st0 Demo.st0 (PStr "/in/empty.png") PNone "" eq_refl)
    as Hthm.
  destruct Hthm as (_ & Hcaught & _).
  - vm_compute. reflexivity.
  - apply (Hcaught (mkExn UnidentifiedImageError
                      "cannot identify image file")).
    vm_compute. reflexivity.
Defined.

(* ===================================================================== *)
(** * Strings and timestamps *)
(* ===================================================================== *)

Section Strings.

Lemma app_cons a s t : String a s +:+ t = String a (s +:+ t).
Proof. reflexivity. Qed.

Lemma app_empty t : "" +:+ t = t.
Proof. reflexivity. Qed.

Lemma length_app s t :
  String.length (s +:+ t) = (String.length s + String.length t)%nat.
Proof.
  induction s as [|a s IH]; [reflexivity|].
  rewrite app_cons. simpl. rewrite IH. reflexivity.
Qed.

Lemma all_chars_app P s t :
  all_chars P (s +:+ t) = all_chars P s && all_chars P t.
Proof.
  induction s as [|a s IH]; [reflexivity|].
  rewrite app_cons. simpl. rewrite IH. apply andb_assoc.
Qed.

(** Two concatenations with left parts of one length agree part by part. *)
Lemma app_inj_length s1 s2 t1 t2 :
  String.length s1 = String.length s2 ->
  s1 +:+ t1 = s2 +:+ t2 -> s1 = s2 /\ t1 = t2.
Proof.
  revert s2. induction s1 as [|a s1 IH]; intros [|b s2] Hlen Heq;
    try discriminate.
  - auto.
  - rewrite !app_cons in Heq. inversion Heq; subst.
    destruct (IH s2) as [-> ->]; auto.
Qed.

(** The same with right parts of one length. *)
Lemma app_inj_length_r s1 s2 t1 t2 :
  String.length t1 = String.length t2 ->
  s1 +:+ t1 = s2 +:+ t2 -> s1 = s2 /\ t1 = t2.
Proof.
  intros Hlen Heq. apply app_inj_length; [|exact Heq].
  apply (f_equal String.length) in Heq. rewrite !length_app in Heq. lia.
Qed.

Lemma all_chars_substring P n m s :
  all_chars P s = true -> all_chars P (substring n m s) = true.
Proof.
  revert n m. induction s as [|a s IH]; intros n m Hs.
  - destruct n, m; reflexivity.
  - simpl in Hs. apply andb_true_iff in Hs as [Ha Hs].
    destruct n as [|n]; simpl.
    + destruct m as [|m]; [reflexivity|]. simpl. rewrite Ha. apply IH, Hs.
    + apply IH, Hs.
Qed.

(** No part of a split holds the separator. *)
Lemma split_on_no_sep c s :
  Forall (fun w => all_chars (fun a => negb (Ascii.eqb a c)) w = true)
         (split_on c s).
Proof.
  induction s as [|a s IH]; simpl.
  - repeat constructor.
  - destruct (Ascii.eqb a c) eqn:Hac.
    + constructor; [reflexivity|exact IH].
    + destruct (split_on c s) as [|w ws].
      * repeat constructor. simpl. rewrite Hac. reflexivity.
      * inversion IH; subst. constructor; [|assumption].
        simpl. rewrite Hac. assumption.
Qed.

Lemma path_name_no_slash s : all_chars not_slash (path_name s) = true.
Proof.
  unfold path_name, path_parts.
  assert (Hall : Forall (fun w => all_chars not_slash w = true)
                   (filter (fun w => w <> "" /\ w <> ".") (split_on "/" s))).
  { apply Forall_forall. intros w Hin.
    apply list_elem_of_filter in Hin as [_ Hin].
    pose proof (split_on_no_sep "/" s) as Hsep.
    rewrite Forall_forall in Hsep. apply Hsep, Hin. }
  induction Hall as [|w ws Hw Hws IH]; [reflexivity|].
  destruct ws; [exact Hw|exact IH].
Qed.

Lemma path_stem_no_slash s : all_chars not_slash (path_stem s) = true.
Proof.
  unfold path_stem. pose proof (path_name_no_slash s) as Hname.
  destruct (rfind "." (path_name s)) as [i|]; [|exact Hname].
  destruct (_ && _); [|exact Hname].
  apply all_chars_substring, Hname.
Qed.

Lemma digit_is_digit n : is_digit (digit n) = true.
Proof.
  unfold is_digit, digit.
  pose proof (Z.mod_pos_bound n 10 ltac:(lia)) as Hmod.
  rewrite nat_ascii_embedding by lia.
  apply andb_true_iff. split; apply Nat.leb_le; lia.
Qed.

Lemma digit_inj n m :
  digit n = digit m -> n mod 10 = m mod 10.
Proof.
  unfold digit. intros H.
  pose proof (Z.mod_pos_bound n 10 ltac:(lia)) as Hn.
  pose proof (Z.mod_pos_bound m 10 ltac:(lia)) as Hm.
  apply (f_equal nat_of_ascii) in H.
  rewrite !nat_ascii_embedding in H by lia. lia.
Qed.

Lemma pad_length w n : String.length (pad w n) = w.
Proof.
  revert n. induction w as [|w IH]; intros n; simpl; [reflexivity|].
  rewrite length_app, IH. simpl. lia.
Qed.

Lemma pad_digits w n : all_chars is_digit (pad w n) = true.
Proof.
  revert n. induction w as [|w IH]; intros n; simpl; [reflexivity|].
  rewrite all_chars_app, IH. simpl. rewrite digit_is_digit. reflexivity.
Qed.

(** A number below [10 ^ w] is read back from its [w] digits. *)
Lemma pad_inj w n m :
  0 <= n < 10 ^ Z.of_nat w -> 0 <= m < 10 ^ Z.of_nat w ->
  pad w n = pad w m -> n = m.
Proof.
  revert n m. induction w as [|w IH]; intros n m Hn Hm Heq.
  - simpl in Hn, Hm. lia.
  - simpl in Heq.
    apply app_inj_length in Heq as [Hhigh Hlow];
      [|rewrite !pad_length; reflexivity].
    inversion Hlow as [Hdigit]. apply digit_inj in Hdigit.
    rewrite Nat2Z.inj_succ, Z.pow_succ_r in Hn, Hm by lia.
    apply IH in Hhigh.
    + rewrite (Z.div_mod n 10), (Z.div_mod m 10) by lia. lia.
    + split; [apply Z.div_pos; lia|].
      apply Z.div_lt_upper_bound; lia.
    + split; [apply Z.div_pos; lia|].
      apply Z.div_lt_upper_bound; lia.
Qed.

Lemma digits_no_slash s :
  all_chars is_digit s = true -> all_chars not_slash s = true.
Proof.
  induction s as [|a s IH]; [reflexivity|]. simpl.
  intros H. apply andb_true_iff in H as [Ha Hs].
  rewrite (IH Hs), andb_true_r.
  unfold not_slash. destruct (Ascii.eqb a "/") eqn:Hslash; [|reflexivity].
  apply Ascii.eqb_eq in Hslash. subst a. discriminate.
Qed.

Lemma app_assoc s t u : (s +:+ t) +:+ u = s +:+ t +:+ u.
Proof.
  induction s as [|a s IH]; [reflexivity|].
  rewrite !app_cons, IH. reflexivity.
Qed.

Lemma strftime_shape d : timestamp_shape (strftime d).
Proof.
  exists (pad 4 (year d) +:+ pad 2 (month d) +:+ pad 2 (day d)),
         (pad 2 (hour d) +:+ pad 2 (minute d) +:+ pad 2 (second d)),
         (pad 6 (microsecond d)).
  unfold strftime. repeat apply conj.
  - rewrite !app_assoc. reflexivity.
  - rewrite !length_app, !pad_length. reflexivity.
  - rewrite !length_app, !pad_length. reflexivity.
  - apply pad_length.
  - rewrite !all_chars_app, !pad_digits. reflexivity.
  - rewrite !all_chars_app, !pad_digits. reflexivity.
  - apply pad_digits.
Qed.

Lemma strftime_length d : String.length (strftime d) = 22%nat.
Proof.
  unfold strftime. rewrite !length_app, !pad_length. reflexivity.
Qed.

Lemma strftime_no_slash d : all_chars not_slash (strftime d) = true.
Proof.
  unfold strftime.
  rewrite !all_chars_app, !(digits_no_slash _ (pad_digits _ _)).
  reflexivity.
Qed.

(** Two well-formed readings with one [strftime] are one reading. *)
Lemma strftime_inj d1 d2 :
  wf_datetime d1 -> wf_datetime d2 -> strftime d1 = strftime d2 -> d1 = d2.
Proof.
  intros (Hy1 & Hm1 & Hd1 & Hh1 & Hmi1 & Hs1 & Hu1)
         (Hy2 & Hm2 & Hd2 & Hh2 & Hmi2 & Hs2 & Hu2) Heq.
  unfold strftime in Heq.
  repeat match type of Heq with
  | pad ?w _ +:+ _ = pad ?w _ +:+ _ =>
      let H := fresh "Hfield" in
      apply app_inj_length in Heq as [H Heq];
        [apply pad_inj in H; [|simpl; lia..]
        |rewrite !pad_length; reflexivity]
  | "_" +:+ _ = "_" +:+ _ => apply (inj (String.app "_")) in Heq
  end.
  apply pad_inj in Heq; [|simpl; lia..].
  destruct d1, d2; simpl in *; congruence.
Qed.

End Strings.

(* ===================================================================== *)
(** * A successful run of [process] *)
(* ===================================================================== *)

Section Success.
Context `{PIL : Imaging} `{HOST : Host}.

(** A success comes out of the body of the [try], run on a validated
    input in the state the call started in. *)
Lemma process_success input dir st r st' :
  process input dir st = (Ok r, st') ->
  status r = PStr "success" ->
  PIL_AVAILABLE = true /\
  (exists err, _validate_input input st = (Ok (true, err), st)) /\
  process_body input dir st = (Ok r, st').
Proof.
  unfold process. intros Hrun Hstatus.
  destruct PIL_AVAILABLE; simpl in Hrun.
  2: { apply ret_Ok in Hrun as [-> _]. discriminate Hstatus. }
  apply bind_Ok in Hrun as ([valid err] & st1 & Hval & Hrun).
  pose proof (_validate_input_pure _ _ _ _ Hval) as ->.
  destruct valid; simpl in Hrun.
  2: { apply ret_Ok in Hrun as [-> _]. discriminate Hstatus. }
  apply try_except_Ok in Hrun as [Hbody|(e & st2 & _ & Hhandler)].
  - eauto.
  - apply ret_Ok in Hhandler as [-> _]. discriminate Hstatus.
Qed.

(** What [_generate_output_path] returns, and what it does on the way. *)
Lemma _generate_output_path_Ok input dir st out st' :
  _generate_output_path input dir st = (Ok out, st') ->
  exists d p : string,
    (dir = PNone /\ d = gettempdir \/ dir = PStr d) /\
    input = PStr p /\
    makedirs (fs (world st)) d = Ok (fs (world st')) /\
    ticks (world st') = S (ticks (world st)) /\
    out = os_path_join d
            ("processed_" +:+ path_stem p +:+ "_" +:+
             strftime (clock (ticks (world st))) +:+ ".png").
Proof.
  unfold _generate_output_path. intros H.
  apply bind_Ok in H as (d & st1 & Hdir & H).
  apply lib_Ok in Hdir as [Hdir ->].
  apply bind_Ok in H as (fs' & st1 & Hmk & H).
  apply lib_fs_Ok in Hmk as [Hmk ->].
  apply bind_Ok in H as ([] & st1 & Hset & H).
  unfold set_fs in Hset. inversion Hset; subst st1; clear Hset.
  apply bind_Ok in H as (now & st1 & Hnow & H).
  unfold datetime_now in Hnow. inversion Hnow; subst now st1; clear Hnow.
  apply bind_Ok in H as (p & st1 & Hp & H).
  apply lib_Ok in Hp as [Hp ->].
  apply ret_Ok in H as [-> ->]. simpl.
  exists d, p. repeat apply conj; try reflexivity.
  - destruct dir; simpl in Hdir; inversion Hdir; subst; auto.
  - destruct input; simpl in Hp; inversion Hp; subst; reflexivity.
  - exact Hmk.
Qed.

(** The steps behind a result of the body, in the order they ran. *)
Lemma process_body_Ok input dir st r st' :
  process_body input dir st = (Ok r, st') ->
  exists (p data : string) (opened rgb sharp edged contrasted smooth
          labelled : Image) (out bytes : string) (st_a st_b st_c : St),
    input = PStr p /\
    fs (world st) !! p = Some (File data) /\
    Image_open data = Ok opened /\
    to_rgb opened st = (Ok rgb, st_a) /\
    Sharpness_enhance rgb (3 # 2) = Ok sharp /\
    img_filter sharp EDGE_ENHANCE = Ok edged /\
    Contrast_enhance edged (6 # 5) = Ok contrasted /\
    img_filter contrasted SMOOTH = Ok smooth /\
    draw_label smooth st_a = (Ok labelled, st_b) /\
    _generate_output_path input dir st_b = (Ok out, st_c) /\
    img_encode labelled "PNG" true = Ok bytes /\
    fs (world st') = <[out := File bytes]> (fs (world st_c)) /\
    ticks (world st') = S (ticks (world st_c)) /\
    r = success_result out input (img_size opened) (img_mode opened)
          (Z.of_nat (String.length bytes)) (clock (ticks (world st_c))).
Proof.
  unfold process_body. intros H.
  apply bind_Ok in H as (p & st1 & Hp & H).
  apply lib_Ok in Hp as [Hp ->].
  apply bind_Ok in H as (data & st1 & Hread & H).
  apply lib_fs_Ok in Hread as [Hread ->].
  apply bind_Ok in H as (opened & st1 & Hopen & H).
  apply lib_Ok in Hopen as [Hopen ->].
  apply bind_Ok in H as (rgb & st_a & Hrgb & H).
  apply bind_Ok in H as (smooth & st1 & Henh & H).
  unfold enhance in Henh.
  apply bind_Ok in Henh as (sharp & st2 & Hsharp & Henh).
  apply lib_Ok in Hsharp as [Hsharp ->].
  apply bind_Ok in Henh as (edged & st2 & Hedge & Henh).
  apply lib_Ok in Hedge as [Hedge ->].
  apply bind_Ok in Henh as (contrasted & st2 & Hcon & Henh).
  apply lib_Ok in Hcon as [Hcon ->].
  apply lib_Ok in Henh as [Hsmooth ->].
  apply bind_Ok in H as (labelled & st_b & Hlabel & H).
  apply bind_Ok in H as (out & st_c & Hgen & H).
  apply bind_Ok in H as ([] & st_d & Hsave & H).
  unfold img_save in Hsave.
  apply bind_Ok in Hsave as ([] & st2 & Hopenw & Hsave).
  apply lib_fs_Ok in Hopenw as [Hopenw ->].
  apply bind_Ok in Hsave as (bytes & st2 & Henc & Hsave).
  apply lib_Ok in Henc as [Henc ->].
  unfold set_fs in Hsave. inversion Hsave; subst st_d; clear Hsave.
  apply bind_Ok in H as (output_size & st2 & Hsize & H).
  apply lib_fs_Ok in Hsize as [Hsize ->].
  apply bind_Ok in H as (now & st2 & Hnow & H).
  unfold datetime_now in Hnow. inversion Hnow; subst now st2; clear Hnow.
  apply ret_Ok in H as [-> ->].
  simpl in Hsize. unfold getsize in Hsize.
  rewrite lookup_insert_eq in Hsize. inversion Hsize; subst output_size.
  exists p, data, opened, rgb, sharp, edged, contrasted, smooth, labelled,
         out, bytes, st_a, st_b, st_c.
  repeat apply conj; try assumption; try reflexivity.
  - destruct input; simpl in Hp; inversion Hp; subst; reflexivity.
  - unfold read_file in Hread.
    destruct (fs (world st) !! p) as [[data'|]|]; inversion Hread; subst.
    reflexivity.
Qed.

End Success.

Section Pipeline.
Context `{PIL : Imaging} `{HOST : Host}.

(** The label is the black shadow drawn on the image it is given, and then
    the red text drawn at the centre on top of the shadow. *)
Lemma draw_label_Ok img st labelled st' :
  draw_label img st = (Ok labelled, st') ->
  exists (font : Font) (x y : Z) (shadowed : Image) (st1 st2 : St),
    draw_shadow font (font_size_of (snd (img_size img))) x y img st1 =
      (Ok shadowed, st2) /\
    draw_text shadowed (x, y) text font (255, 0, 0) = Ok labelled.
Proof.
  unfold draw_label. intros H.
  apply bind_Ok in H as ([] & st1 & _ & H).
  destruct (img_size img) as [width height] eqn:Hsize.
  apply bind_Ok in H as (font & st2 & _ & H).
  apply bind_Ok in H as ([[[x0 y0] x1] y1] & st3 & _ & H).
  apply bind_Ok in H as (shadowed & st4 & Hshadow & H).
  apply lib_Ok in H as [Hred _].
  exists font, ((width - (x1 - x0)) / 2), ((height - (y1 - y0)) / 2),
         shadowed, st3, st4.
  simpl. auto.
Qed.

Lemma bind_inv {A B} (m : M A) (k : A -> M B) st r st' :
  bind m k st = (r, st') ->
  (exists e, m st = (Raise e, st') /\ r = Raise e) \/
  (exists a st1, m st = (Ok a, st1) /\ k a st1 = (r, st')).
Proof.
  unfold bind. destruct (m st) as [[a|e] st1]; intros H.
  - right. eauto.
  - left. inversion H; subst. eauto.
Qed.

Lemma keeps_world__validate_input path : keeps_world (_validate_input path).
Proof. unfold _validate_input. frame. Qed.

(** Whatever the outcome of the body of the [try], it has touched the file
    system only after the four enhancement steps and the label. *)
Lemma process_body_writes_late input dir st res st' :
  process_body input dir st = (res, st') ->
  fs (world st') <> fs (world st) ->
  exists (p data : string) (opened rgb sharp edged contrasted smooth
          labelled : Image) (st_a st_b : St),
    input = PStr p /\
    fs (world st) !! p = Some (File data) /\
    Image_open data = Ok opened /\
    to_rgb opened st = (Ok rgb, st_a) /\
    Sharpness_enhance rgb (3 # 2) = Ok sharp /\
    img_filter sharp EDGE_ENHANCE = Ok edged /\
    Contrast_enhance edged (6 # 5) = Ok contrasted /\
    img_filter contrasted SMOOTH = Ok smooth /\
    draw_label smooth st_a = (Ok labelled, st_b).
Proof.
  unfold process_body. intros H Hfs.
  apply bind_inv in H as [(e & Hm & _)|(p & st1 & Hp & H)].
  { destruct (keeps_world_lib _ _ _ _ Hm) as (Heq & _). contradiction. }
  apply lib_Ok in Hp as [Hp ->].
  apply bind_inv in H as [(e & Hm & _)|(data & st1 & Hread & H)].
  { destruct (keeps_world_lib_fs _ _ _ _ Hm) as (Heq & _). contradiction. }
  apply lib_fs_Ok in Hread as [Hread ->].
  apply bind_inv in H as [(e & Hm & _)|(opened & st1 & Hopen & H)].
  { destruct (keeps_world_lib _ _ _ _ Hm) as (Heq & _). contradiction. }
  apply lib_Ok in Hopen as [Hopen ->].
  apply bind_inv in H as [(e & Hm & _)|(rgb & st_a & Hrgb & H)].
  { destruct (keeps_world_to_rgb _ _ _ _ Hm) as (Heq & _). contradiction. }
  destruct (keeps_world_to_rgb _ _ _ _ Hrgb) as (Hfs_a & _).
  apply bind_inv in H as [(e & Hm & _)|(smooth & st1 & Henh & H)].
  { destruct (keeps_world_enhance _ _ _ _ Hm) as (Heq & _).
    rewrite Hfs_a in Heq. contradiction. }
  unfold enhance in Henh.
  apply bind_Ok in Henh as (sharp & st2 & Hsharp & Henh).
  apply lib_Ok in Hsharp as [Hsharp ->].
  apply bind_Ok in Henh as (edged & st2 & Hedge & Henh).
  apply lib_Ok in Hedge as [Hedge ->].
  apply bind_Ok in Henh as (contrasted & st2 & Hcon & Henh).
  apply lib_Ok in Hcon as [Hcon ->].
  apply lib_Ok in Henh as [Hsmooth ->].
  apply bind_inv in H as [(e & Hm & _)|(labelled & st_b & Hlabel & H)].
  { destruct (keeps_world_draw_label _ _ _ _ Hm) as (Heq & _).
    rewrite Hfs_a in Heq. contradiction. }
  exists p, data, opened, rgb, sharp, edged, contrasted, smooth, labelled,
         st_a, st_b.
  repeat apply conj; try assumption.
  - destruct input; simpl in Hp; inversion Hp; subst; reflexivity.
  - unfold read_file in Hread.
    destruct (fs (world st) !! p) as [[data'|]|]; inversion Hread; subst.
    reflexivity.
Qed.

(** C5. In every run of [process] that succeeds, the image read from the
    input, brought to RGB, went through the sharpness enhancement (factor
    1.5), then the edge-enhancement filter, then the contrast enhancement
    (factor 1.2), then the smoothing filter, each step working on the
    result of the one before; only the smoothed image was labelled, first
    with the shadow and then with the red text; and the labelled image,
    encoded as PNG, is what the output path holds afterwards. And in every
    run, successful or not, the file system is touched only after these
    steps and the label: nothing is saved before them. *)
Theorem enhancement_order (input dir : PyVal) (st : St) :
  (forall (r : PyVal) (st' : St),
     process input dir st = (Ok r, st') ->
     status r = PStr "success" ->
     exists (p data : string) (opened rgb sharp edged contrasted smooth
             shadowed labelled : Image) (font : Font) (x y : Z)
            (out bytes : string) (st_a st_b st_c st_d : St),
       input = PStr p /\
       fs (world st) !! p = Some (File data) /\
       Image_open data = Ok opened /\
       to_rgb opened st = (Ok rgb, st_a) /\
       Sharpness_enhance rgb (3 # 2) = Ok sharp /\
       img_filter sharp EDGE_ENHANCE = Ok edged /\
       Contrast_enhance edged (6 # 5) = Ok contrasted /\
       img_filter contrasted SMOOTH = Ok smooth /\
       draw_label smooth st_a = (Ok labelled, st_b) /\
       draw_shadow font (font_size_of (snd (img_size smooth))) x y smooth
         st_c = (Ok shadowed, st_d) /\
       draw_text shadowed (x, y) text font (255, 0, 0) = Ok labelled /\
       img_encode labelled "PNG" true = Ok bytes /\
       output_image_path r = PStr out /\
       fs (world st') !! out = Some (File bytes)) /\
  (forall (res : Res PyVal) (st' : St),
     process input dir st = (res, st') ->
     fs (world st') <> fs (world st) ->
     exists (p data : string) (opened rgb sharp edged contrasted smooth
             labelled : Image) (st_a st_b : St),
       input = PStr p /\
       fs (world st) !! p = Some (File data) /\
       Image_open data = Ok opened /\
       to_rgb opened st = (Ok rgb, st_a) /\
       Sharpness_enhance rgb (3 # 2) = Ok sharp /\
       img_filter sharp EDGE_ENHANCE = Ok edged /\
       Contrast_enhance edged (6 # 5) = Ok contrasted /\
       img_filter contrasted SMOOTH = Ok smooth /\
       draw_label smooth st_a = (Ok labelled, st_b)).
Proof.
  split.
  - intros r st' Hrun Hstatus.
    apply process_success in Hrun as (_ & _ & Hbody); [|exact Hstatus].
    apply process_body_Ok in Hbody
      as (p & data & opened & rgb & sharp & edged & contrasted & smooth &
          labelled & out & bytes & st_a & st_b & st_e &
          Hin & Hfile & Hopen & Hrgb & Hsharp & Hedge & Hcon & Hsmooth &
          Hlabel & Hgen & Henc & Hfs & Hclk & ->).
    destruct (draw_label_Ok _ _ _ _ Hlabel)
      as (font & x & y & shadowed & st_c & st_d & Hshadow & Hred).
    exists p, data, opened, rgb, sharp, edged, contrasted, smooth, shadowed,
           labelled, font, x, y, out, bytes, st_a, st_b, st_c, st_d.
    repeat apply conj; try assumption; try reflexivity.
    rewrite Hfs. apply lookup_insert_eq.
  - intros res st' Hrun Hfs. unfold process in Hrun.
    destruct PIL_AVAILABLE; simpl in Hrun.
    2: { inversion Hrun; subst. contradiction. }
    apply bind_inv in Hrun as [(e & Hval & _)|([valid err] & st1 & Hval & H)].
    { destruct (keeps_world__validate_input _ _ _ _ Hval) as (Heq & _).
      contradiction. }
    pose proof (_validate_input_pure _ _ _ _ Hval) as ->.
    destruct valid; simpl in H.
    2: { inversion H; subst. contradiction. }
    unfold try_except in H.
    destruct (process_body input dir st) as [[r|e] st2] eqn:Hbody;
      inversion H; subst; eapply process_body_writes_late; eauto.
Qed.

(** Joining a directory that is not empty with a relative name puts a
    slash between them, unless the directory ends with one. *)
Lemma os_path_join_relative d name :
  d <> "" -> starts_with "/" name = false ->
  os_path_join d name = d +:+ "/" +:+ name \/
  ends_with "/" d = true /\ os_path_join d name = d +:+ name.
Proof.
  intros Hd Hrel. unfold os_path_join. rewrite Hrel.
  apply String.eqb_neq in Hd. rewrite Hd; simpl.
  destruct (ends_with "/" d); auto.
Qed.

(** Where a successful run puts its output: the directory it made, the
    path it joined and the file it wrote there. *)
Lemma output_path_of_success input dir st r st' :
  process input dir st = (Ok r, st') ->
  status r = PStr "success" ->
  exists (p d bytes : string) (before after : FS),
    input = PStr p /\
    (dir = PNone /\ d = gettempdir \/ dir = PStr d) /\
    d <> "" /\
    makedirs before d = Ok after /\
    ticks (world st') = S (S (ticks (world st))) /\
    let out := os_path_join d
                 ("processed_" +:+ path_stem p +:+ "_" +:+
                  strftime (clock (ticks (world st))) +:+ ".png") in
    output_image_path r = PStr out /\
    fs (world st') = <[out := File bytes]> after.
Proof.
  intros Hrun Hstatus.
  apply process_success in Hrun as (_ & _ & Hbody); [|exact Hstatus].
  apply process_body_Ok in Hbody
    as (p & data & opened & rgb & sharp & edged & contrasted & smooth &
        labelled & out & bytes & st_a & st_b & st_c &
        Hin & Hfile & Hopen & Hrgb & Hsharp & Hedge & Hcon & Hsmooth &
        Hlabel & Hgen & Henc & Hfs & Hclk & ->).
  apply _generate_output_path_Ok in Hgen
    as (d & p' & Hdir & Hin' & Hmk & Hticks & Hout).
  rewrite Hin in Hin'. inversion Hin'; subst p'; clear Hin'.
  destruct (keeps_world_to_rgb _ _ _ _ Hrgb) as (_ & _ & Hticks_a).
  destruct (keeps_world_draw_label _ _ _ _ Hlabel) as (_ & _ & Hticks_b).
  rewrite Hticks_b, Hticks_a in Hout, Hticks. subst out.
  exists p, d, bytes, (fs (world st_b)), (fs (world st_c)).
  repeat apply conj; try assumption; try reflexivity.
  - intros ->. unfold makedirs in Hmk. simpl in Hmk. discriminate.
  - rewrite Hclk, Hticks. reflexivity.
Qed.

(** C7. In every run of [process] that succeeds, the output path is the
    directory - the one the caller gave, or [tempfile.gettempdir()] when
    the caller gave none - joined with the file name
    "processed_" + stem of the input + "_" + timestamp + ".png", where the
    timestamp is the clock reading of the run in the shape
    YYYYMMDD_HHMMSS_ffffff. The file name holds no slash, so the path is
    the directory, a slash unless the directory ends with one, and the file
    name; and afterwards the directory exists and the path is a file. *)
Theorem output_path_form (input dir : PyVal) (st st' : St) (r : PyVal) :
  process input dir st = (Ok r, st') ->
  status r = PStr "success" ->
  exists p d ts name : string,
    input = PStr p /\
    (dir = PNone /\ d = gettempdir \/ dir = PStr d) /\
    ts = strftime (clock (ticks (world st))) /\
    timestamp_shape ts /\
    name = "processed_" +:+ path_stem p +:+ "_" +:+ ts +:+ ".png" /\
    all_chars not_slash name = true /\
    output_image_path r = PStr (os_path_join d name) /\
    (os_path_join d name = d +:+ "/" +:+ name \/
     ends_with "/" d = true /\ os_path_join d name = d +:+ name) /\
    fs (world st') !! d = Some Dir /\
    (exists bytes, fs (world st') !! os_path_join d name = Some (File bytes)).
Proof.
  intros Hrun Hstatus.
  destruct (output_path_of_success _ _ _ _ _ Hrun Hstatus)
    as (p & d & bytes & before & after & Hin & Hdir & Hd & Hmk & _ & Hout &
        Hfs).
  simpl in Hout, Hfs.
  set (ts := strftime (clock (ticks (world st)))) in *.
  set (name := "processed_" +:+ path_stem p +:+ "_" +:+ ts +:+ ".png") in *.
  assert (Hname : all_chars not_slash name = true).
  { unfold name, ts.
    rewrite !all_chars_app, path_stem_no_slash, strftime_no_slash.
    reflexivity. }
  assert (Hdir_after : after !! d = Some Dir).
  { unfold makedirs in Hmk. apply String.eqb_neq in Hd. rewrite Hd in Hmk.
    destruct (before !! d) as [[data'|]|] eqn:Hnode;
      try discriminate; injection Hmk as <-.
    - exact Hnode.
    - apply lookup_insert_eq. }
  pose proof (os_path_join_relative d name Hd eq_refl) as Hjoin.
  assert (Hne : os_path_join d name <> d).
  { intros Heq. apply (f_equal String.length) in Heq.
    destruct Hjoin as [Hj|[_ Hj]]; rewrite Hj in Heq;
      rewrite !length_app in Heq; unfold name in Heq;
      rewrite !length_app in Heq; simpl in Heq; lia. }
  exists p, d, ts, name.
  repeat apply conj; try assumption; try reflexivity.
  - apply strftime_shape.
  - rewrite Hfs, lookup_insert_ne by exact Hne. exact Hdir_after.
  - exists bytes. rewrite Hfs. apply lookup_insert_eq.
Qed.

(** C8. Two runs of [process] on the same input and output directory that
    both succeed and whose clock readings differ - in any field, down to
    the microsecond - return different output paths: the paths are the
    same directory joined with file names that differ in their
    timestamps. In particular, when the clock never gives one reading
    twice, a successful run and any successful run after it return
    different output paths. *)
Theorem successive_outputs_distinct (input dir : PyVal)
    (st1 st1' st2 st2' : St) (r1 r2 : PyVal) :
  process input dir st1 = (Ok r1, st1') ->
  status r1 = PStr "success" ->
  process input dir st2 = (Ok r2, st2') ->
  status r2 = PStr "success" ->
  (clock (ticks (world st1)) <> clock (ticks (world st2)) ->
   output_image_path r1 <> output_image_path r2 /\
   exists p d : string,
     input = PStr p /\
     output_image_path r1 =
       PStr (os_path_join d ("processed_" +:+ path_stem p +:+ "_" +:+
               strftime (clock (ticks (world st1))) +:+ ".png")) /\
     output_image_path r2 =
       PStr (os_path_join d ("processed_" +:+ path_stem p +:+ "_" +:+
               strftime (clock (ticks (world st2))) +:+ ".png")) /\
     strftime (clock (ticks (world st1))) <>
     strftime (clock (ticks (world st2)))) /\
  ((forall n m : nat, n <> m -> clock n <> clock m) ->
   (ticks (world st1') <= ticks (world st2))%nat ->
   output_image_path r1 <> output_image_path r2).
Proof.
  intros Hrun1 Hs1 Hrun2 Hs2.
  pose proof (output_path_of_success _ _ _ _ _ Hrun1 Hs1)
    as (? & ? & ? & ? & ? & _ & _ & _ & _ & Hticks & _).
  match goal with |- ?differ /\ _ => assert (Hdiffer : differ) end.
  { intros Hclock.
    destruct (output_path_of_success _ _ _ _ _ Hrun1 Hs1)
      as (p & d & ? & ? & ? & Hin & Hd1 & Hne1 & _ & _ & Hout1 & _).
    destruct (output_path_of_success _ _ _ _ _ Hrun2 Hs2)
      as (p' & d' & ? & ? & ? & Hin' & Hd2 & Hne2 & _ & _ & Hout2 & _).
    simpl in Hout1, Hout2.
    pose proof (os_path_join_relative d
      ("processed_" +:+ path_stem p +:+ "_" +:+
       strftime (clock (ticks (world st1))) +:+ ".png") Hne1 eq_refl) as Hj1.
    pose proof (os_path_join_relative d'
      ("processed_" +:+ path_stem p' +:+ "_" +:+
       strftime (clock (ticks (world st2))) +:+ ".png") Hne2 eq_refl) as Hj2.
    rewrite Hin in Hin'. inversion Hin'; subst p'; clear Hin'.
    assert (d' = d) as ->.
    { destruct Hd1 as [[Hn1 Hg1] | Hp1], Hd2 as [[Hn2 Hg2] | Hp2];
        congruence. }
    assert (Hts : strftime (clock (ticks (world st1))) <>
                  strftime (clock (ticks (world st2)))).
    { intros Heq. apply Hclock. apply strftime_inj; auto using clock_wf. }
    split.
    - rewrite Hout1, Hout2. intros Heq. inversion Heq as [Hpaths].
      apply Hts.
      assert (Hnames :
        "processed_" +:+ path_stem p +:+ "_" +:+
          strftime (clock (ticks (world st1))) +:+ ".png" =
        "processed_" +:+ path_stem p +:+ "_" +:+
          strftime (clock (ticks (world st2))) +:+ ".png").
      { destruct Hj1 as [Hj1|[Hslash Hj1]], Hj2 as [Hj2|[Hslash' Hj2]];
          rewrite Hj1, Hj2 in Hpaths.
        - apply (inj (String.app d)), (inj (String.app "/")) in Hpaths.
          exact Hpaths.
        - exfalso. apply (f_equal String.length) in Hpaths.
          rewrite !length_app, !strftime_length in Hpaths. simpl in Hpaths.
          lia.
        - exfalso. apply (f_equal String.length) in Hpaths.
          rewrite !length_app, !strftime_length in Hpaths. simpl in Hpaths.
          lia.
        - apply (inj (String.app d)) in Hpaths. exact Hpaths. }
      apply (inj (String.app "processed_")), (inj (String.app (path_stem p))),
        (inj (String.app "_")) in Hnames.
      apply app_inj_length in Hnames as [Hgoal _];
        [exact Hgoal|rewrite !strftime_length; reflexivity].
    - exists p, d. auto. }
  split; [exact Hdiffer|].
  intros Hunique Hlater. apply Hdiffer, Hunique. lia.
Qed.

End Pipeline.

(* ===================================================================== *)
(** * Runs on the symbolic library *)
(* ===================================================================== *)

Lemma run0_succeeds :
  Demo.run0 = (Ok (Demo.result_of Demo.run0), snd Demo.run0) /\
  status (Demo.result_of Demo.run0) = PStr "success".
Proof. split; vm_compute; reflexivity. Qed.

Lemma run1_succeeds :
  Demo.run1 = (Ok (Demo.result_of Demo.run1), snd Demo.run1) /\
  status (Demo.result_of Demo.run1) = PStr "success".
Proof. split; vm_compute; reflexivity. Qed.

(** The file the first run writes lists the steps in their order. *)
Example run0_saved_file :
  fs (world (snd Demo.run0))
    !! "/out/processed_leaf_20240102_030405_000000.png" =
  Some (File
    ("PNG open sharpness edge_enhance contrast smooth" +:+
     fold_left (fun acc _ => acc +:+ " black") (seq 0 48) "" +:+ " red")).
Proof. vm_compute. reflexivity. Qed.

(** Eleven sizes fill the cache up to 11 fonts: the bound is reached. *)
Example cache_reaches_eleven :
  cache_size (@get_font_calls Demo.sym_imaging (range 1 12) Demo.st0)
  = 11%nat.
Proof. vm_compute. reflexivity. Qed.

Lemma font_cache_bounded_witness :
  (cache_size (@get_font_calls Demo.sym_imaging (range 1 40) Demo.st0)
   <= 11)%nat /\
  _font_cache
    (self (snd (@_get_font Demo.sym_imaging 12
                  (@get_font_calls Demo.sym_imaging (range 1 12) Demo.st0))))
  = {[ 12 := "default" ]}.
Proof.
  destruct (@font_cache_bounded Demo.sym_imaging) as [Hbound Hclear].
  split.
  - apply (Hbound (range 1 40) Demo.world0).
  - apply (Hclear 12
             (@get_font_calls Demo.sym_imaging (range 1 12) Demo.st0)
             _ "default").
    + vm_compute. lia.
    + vm_compute. reflexivity.
    + vm_compute. reflexivity.
Defined.

Lemma enhancement_order_witness :
  exists out bytes : string,
    output_image_path (Demo.result_of Demo.run0) = PStr out /\
    fs (world (snd Demo.run0)) !! out = Some (File bytes).
Proof.
  destruct (proj1 (@enhancement_order Demo.sym_imaging Demo.host_ok
                     (PStr "/in/leaf.png") (PStr "/out") Demo.st0)
              (Demo.result_of Demo.run0) (snd Demo.run0))
    as (p & data & opened & rgb & sharp & edged & contrasted & smooth &
        shadowed & labelled & font & x & y & out & bytes & st_a & st_b &
        st_c & st_d & H).
  - vm_compute. reflexivity.
  - vm_compute. reflexivity.
  - exists out, bytes. tauto.
Defined.

Lemma output_path_form_witness :
  exists d name : string,
    output_image_path (Demo.result_of Demo.run0) =
      PStr (os_path_join d name) /\
    all_chars not_slash name = true.
Proof.
  destruct (@output_path_form Demo.sym_imaging Demo.host_ok
              (PStr "/in/leaf.png") (PStr "/out") Demo.st0 (snd Demo.run0)
              (Demo.result_of Demo.run0))
    as (p & d & ts & name & H).
  - vm_compute. reflexivity.
  - vm_compute. reflexivity.
  - exists d, name. tauto.
Defined.

Lemma successive_outputs_distinct_witness :
  output_image_path (Demo.result_of Demo.run0) <>
  output_image_path (Demo.result_of Demo.run1).
Proof.
  destruct (@successive_outputs_distinct Demo.sym_imaging Demo.host_ok
              (PStr "/in/leaf.png") (PStr "/out")
              Demo.st0 (snd Demo.run0) (snd Demo.run0) (snd Demo.run1)
              (Demo.result_of Demo.run0) (Demo.result_of Demo.run1))
    as [Hdiffer _].
  - vm_compute. reflexivity.
  - vm_compute. reflexivity.
  - vm_compute. reflexivity.
  - vm_compute. reflexivity.
  - apply Hdiffer. vm_compute. discriminate.
Defined.

(* ===================================================================== *)
(** * process_image_json *)
(* ===================================================================== *)

Section Json.
Context `{PIL : Imaging} `{HOST : Host}.

Lemma dict_get_absent items key :
  dict_has items key = false -> dict_get items key = PNone.
Proof.
  unfold dict_has. induction items as [|[k v] rest IH]; simpl;
    [reflexivity|].
  intros H. apply orb_false_iff in H as [Hk Hrest].
  rewrite Hk. apply IH, Hrest.
Qed.

(** On a string path, [process] returns a dict with a status and never
    raises. *)
Lemma process_str_returns p dir st :
  exists items,
    fst (process (PStr p) dir st) = Ok (PDict items) /\
    dict_has items "status" = true.
Proof.
  unfold process. destruct PIL_AVAILABLE; simpl.
  2: { eexists. split; reflexivity. }
  unfold bind at 1. rewrite _validate_input_str.
  destruct (verdict (fs (world st)) p) as [[] err]; simpl.
  2: { eexists. split; reflexivity. }
  unfold try_except.
  destruct (process_body (PStr p) dir st) as [[r|e] st1] eqn:Hbody; simpl.
  - apply process_body_Ok in Hbody
      as (? & ? & ? & ? & ? & ? & ? & ? & ? & ? & ? & ? & ? & ? & H).
    destruct H as (_ & _ & _ & _ & _ & _ & _ & _ & _ & _ & _ & _ & _ & ->).
    eexists. split; reflexivity.
  - eexists. split; reflexivity.
Qed.

End Json.

(** C9, counterexample: for the object {"input_image_path": [1]} the path
    is a non-empty list; it is truthy, so the processor is called, and
    [os.path.exists] raises [TypeError] on it in [_validate_input], outside
    the [try] of [process]. Nothing catches it. *)
Lemma process_image_json_raises_on_list_path :
  @json_loads Demo.host_json Demo.doc_list =
  Ok (PDict [("input_image_path", PList [PInt 1])]) /\
  fst (@process_image_json Demo.sym_imaging Demo.host_json
         Demo.doc_list Demo.glob0) =
  Raise (mkExn TypeError
    "stat: path should be string, bytes, os.PathLike or integer, not list")
  /\ ~ process_image_json_never_raises.
Proof.
  split; [vm_compute; reflexivity|]. split; [vm_compute; reflexivity|].
  intros Hclaim.
  destruct (Hclaim Demo.sym_imaging Demo.host_json Demo.doc_list
              [("input_image_path", PList [PInt 1])] Demo.glob0)
    as [out Hout].
  - vm_compute. reflexivity.
  - vm_compute in Hout. discriminate.
Qed.

(** C9, amended. For every input string that parses as a JSON object whose
    "input_image_path" is absent, falsy or a string, [process_image_json]
    returns the JSON text of an object with a "status" field and does not
    raise. When the field is absent or falsy - in particular when it is
    the empty string - the object is status "error" with the error
    "Missing input_image_path", and the module is left as it was: no
    processor is created or called, and "Empty path" is never the
    answer. *)
Theorem process_image_json_returns `{PIL : Imaging} `{HOST : Host}
    (input_json : string) (items : list (string * PyVal)) (g : Glob) :
  json_loads input_json = Ok (PDict items) ->
  (truthy (dict_get items "input_image_path") = false \/
   exists p, dict_get items "input_image_path" = PStr p) ->
  (exists result,
     fst (process_image_json input_json g) = Ok (json_dumps (PDict result)) /\
     dict_has result "status" = true) /\
  (dict_has items "input_image_path" = false \/
   dict_get items "input_image_path" = PStr "" \/
   truthy (dict_get items "input_image_path") = false ->
   process_image_json input_json g =
   (Ok (json_dumps (PDict [ ("status", PStr "error");
                            ("error", PStr "Missing input_image_path") ])),
    g)).
Proof.
  intros Hload Hpath.
  assert (Hmissing : truthy (dict_get items "input_image_path") = false ->
    process_image_json input_json g =
    (Ok (json_dumps (error_result "Missing input_image_path")), g)).
  { intros Hfalsy. unfold process_image_json.
    rewrite Hload, Hfalsy. reflexivity. }
  split.
  - destruct (truthy (dict_get items "input_image_path")) eqn:Htruthy.
    + destruct Hpath as [Hfalsy|[p Hp]]; [discriminate|].
      unfold process_image_json. rewrite Hload, Htruthy, Hp; simpl.
      destruct (get_processor g) as [processor g1].
      destruct (process_str_returns p (dict_get items "output_dir")
                  (mkSt processor (g_world g1))) as (result & Hrun & Hst).
      destruct (process (PStr p) (dict_get items "output_dir")
                  (mkSt processor (g_world g1))) as [r st1].
      simpl in Hrun. subst r. exists result. auto.
    + rewrite (Hmissing eq_refl). eexists. split; reflexivity.
  - intros [Habsent|[Hempty|Hfalsy]]; apply Hmissing.
    + rewrite (dict_get_absent _ _ Habsent). reflexivity.
    + rewrite Hempty. reflexivity.
    + exact Hfalsy.
Qed.

Lemma process_image_json_returns_witness :
  (exists result,
     fst (@process_image_json Demo.sym_imaging Demo.host_json
            Demo.doc_leaf Demo.glob0) =
     Ok (@json_dumps Demo.host_json (PDict result)) /\
     dict_has result "status" = true) /\
  @process_image_json Demo.sym_imaging Demo.host_json
     Demo.doc_empty Demo.glob0 =
  (Ok (@json_dumps Demo.host_json
         (PDict [ ("status", PStr "error");
                  ("error", PStr "Missing input_image_path") ])),
   Demo.glob0).
Proof.
  split.
  - apply (@process_image_json_returns Demo.sym_imaging Demo.host_json
             Demo.doc_leaf [("input_image_path", PStr "/in/leaf.png")]
             Demo.glob0).
    + vm_compute. reflexivity.
    + right. exists "/in/leaf.png". reflexivity.
  - apply (@process_image_json_returns Demo.sym_imaging Demo.host_json
             Demo.doc_empty [] Demo.glob0).
    + vm_compute. reflexivity.
    + left. reflexivity.
    + left. reflexivity.
Defined.

(* ===================================================================== *)
(** * Properties of build_assets.py *)
(* ===================================================================== *)

Section Packaging.
Context `{TOOLS : Tools}.

Lemma joinpath_inj d a b :
  starts_with "/" a = false -> starts_with "/" b = false ->
  joinpath d a = joinpath d b -> a = b.
Proof.
  unfold joinpath, os_path_join. intros -> ->.
  destruct (String.eqb d "" || ends_with "/" d); intros H.
  - apply (inj (String.app d)) in H. exact H.
  - apply (inj (String.app d)), (inj (String.app "/")) in H. exact H.
Qed.

Lemma zip_path_ne_pyc_path output_dir :
  zip_path output_dir <> pyc_path output_dir.
Proof.
  unfold zip_path, pyc_path. intros H.
  apply joinpath_inj in H; [discriminate|reflexivity..].
Qed.

(** Creating the directory leaves every other path as it was, and does
    nothing to a path that exists. *)
Lemma makedirs_other fs d fs1 p :
  makedirs fs d = Ok fs1 -> is_Some (fs !! p) -> fs1 !! p = fs !! p.
Proof.
  unfold makedirs. destruct (String.eqb d ""); [discriminate|].
  destruct (fs !! d) as [[data|]|] eqn:Hd; intros H Hp;
    inversion H; subst; [reflexivity|].
  apply lookup_insert_ne. intros ->. rewrite Hd in Hp.
  destruct Hp as [n Hn]. discriminate.
Qed.

(** A run that meets no obstacle: the source is a regular file that
    compiles, the output directory can be made, and neither of the two
    file names is taken by a directory. *)
Lemma build_assets_runs input_py output_dir fs source code fs1 :
  fs !! resolve input_py = Some (File source) ->
  source_to_code source = Ok code ->
  makedirs fs (resolve output_dir) = Ok fs1 ->
  fs1 !! pyc_path output_dir <> Some Dir ->
  fs1 !! zip_path output_dir <> Some Dir ->
  build_assets input_py output_dir fs =
  (Returned,
   delete (pyc_path output_dir)
     (<[zip_path output_dir :=
          File (zip_deflated [(pyc_filename, code)])]>
        (<[pyc_path output_dir := File code]> fs1)),
   [ "Compiling " +:+ resolve input_py +:+ " -> " +:+
       pyc_path output_dir +:+ "...";
     "Creating " +:+ zip_path output_dir +:+ "...";
     "Success! Created app_modules.zip" ]).
Proof.
  intros Hsrc Hcode Hmk Hpyc Hzip.
  assert (Hsrc1 : fs1 !! resolve input_py = Some (File source)).
  { rewrite (makedirs_other _ _ _ _ Hmk); [exact Hsrc|].
    rewrite Hsrc. eauto. }
  unfold build_assets, path_exists. rewrite Hsrc; simpl. rewrite Hmk.
  fold (pyc_path output_dir). fold (zip_path output_dir).
  unfold py_compile, read_file. rewrite Hsrc1, Hcode.
  destruct (fs1 !! pyc_path output_dir) as [[old|]|] eqn:Hold;
    try (exfalso; apply Hpyc; reflexivity).
  all: unfold zip_write, open_w.
  all: rewrite (lookup_insert_ne _ _ _ _
                  (not_eq_sym (zip_path_ne_pyc_path _))).
  all: destruct (fs1 !! zip_path output_dir) as [[oldzip|]|] eqn:Holdzip;
    try (exfalso; apply Hzip; reflexivity).
  all: unfold read_file; rewrite lookup_insert_eq.
  all: rewrite (lookup_insert_ne _ _ _ _ (zip_path_ne_pyc_path _)).
  all: rewrite lookup_insert_eq; unfold unlink.
  all: rewrite (lookup_insert_ne _ _ _ _ (zip_path_ne_pyc_path _)).
  all: rewrite lookup_insert_eq; reflexivity.
Qed.

(** Conversely, a run that returns has met no obstacle. *)
Lemma build_assets_returned input_py output_dir fs fs' out :
  build_assets input_py output_dir fs = (Returned, fs', out) ->
  exists source code fs1,
    fs !! resolve input_py = Some (File source) /\
    source_to_code source = Ok code /\
    makedirs fs (resolve output_dir) = Ok fs1 /\
    fs1 !! pyc_path output_dir <> Some Dir /\
    fs1 !! zip_path output_dir <> Some Dir.
Proof.
  unfold build_assets. fold (pyc_path output_dir) (zip_path output_dir).
  destruct (path_exists fs (resolve input_py)) eqn:Hex; simpl;
    [|discriminate].
  destruct (makedirs fs (resolve output_dir)) as [fs1|e] eqn:Hmk;
    [|discriminate].
  destruct (py_compile fs1 (resolve input_py) (pyc_path output_dir))
    as [fs2|e] eqn:Hpc; [|discriminate].
  destruct (zip_write fs2 (zip_path output_dir) (pyc_path output_dir)
              pyc_filename) as [[[]|e] fs3] eqn:Hzw; [|discriminate].
  intros _.
  assert (Hsome : is_Some (fs !! resolve input_py)).
  { unfold path_exists in Hex.
    destruct (fs !! resolve input_py); [eauto|discriminate]. }
  unfold py_compile, read_file in Hpc.
  rewrite (makedirs_other _ _ _ _ Hmk Hsome) in Hpc.
  assert (Hpyc : fs1 !! pyc_path output_dir <> Some Dir).
  { intros Hdir. rewrite Hdir in Hpc. discriminate. }
  assert (Hrest :
    match fs !! resolve input_py with
    | Some (File source) =>
        match source_to_code source with
        | Raise e => Raise e
        | Ok code => Ok (<[pyc_path output_dir := File code]> fs1)
        end
    | Some Dir =>
        Raise (mkExn IsADirectoryError
                 ("[Errno 21] Is a directory: " +:+ resolve input_py))
    | None =>
        Raise (mkExn FileNotFoundError
                 ("[Errno 2] No such file or directory: "
                  +:+ resolve input_py))
    end = Ok fs2).
  { destruct (fs1 !! pyc_path output_dir) as [[old|]|];
      [|exfalso; apply Hpyc; reflexivity|];
      destruct (fs !! resolve input_py) as [[source|]|];
      try discriminate; destruct (source_to_code source);
      try discriminate; exact Hpc. }
  destruct (fs !! resolve input_py) as [[source|]|]; try discriminate.
  destruct (source_to_code source) as [code|e] eqn:Hcode; [|discriminate].
  injection Hrest as <-.
  exists source, code, fs1. repeat apply conj; try reflexivity;
    try assumption.
  intros Hdir. unfold zip_write, open_w in Hzw.
  rewrite (lookup_insert_ne _ _ _ _ (not_eq_sym (zip_path_ne_pyc_path _)))
    in Hzw.
  rewrite Hdir in Hzw. discriminate.
Qed.

End Packaging.

(** C6. A run of the tool that returns has compiled the existing source
    file and leaves, in the output directory as it was after being made,
    exactly one change: the archive app_modules.zip, a regular file whose
    only entry is the compiled module under the name image_processor.pyc;
    no file image_processor.pyc is left beside it, and every other path is
    untouched. Such runs exist: the tool returns whenever the source is a
    regular file that compiles, the directory can be made and the two
    names are not taken by directories. When the input path does not
    exist, or when compiling raises, the tool prints a message and exits
    with status 1. *)
Theorem build_assets_packages `{TOOLS : Tools}
    (prog input_py output_dir : string) (fs : FS) :
  let run := main [prog; input_py; output_dir] fs in
  (forall fs' out,
     run = (Returned, fs', out) ->
     exists source code fs1,
       fs !! resolve input_py = Some (File source) /\
       source_to_code source = Ok code /\
       makedirs fs (resolve output_dir) = Ok fs1 /\
       fs' !! zip_path output_dir =
         Some (File (zip_deflated [("image_processor.pyc", code)])) /\
       fs' !! pyc_path output_dir = None /\
       (forall p, p <> zip_path output_dir -> p <> pyc_path output_dir ->
                  fs' !! p = fs1 !! p) /\
       last out = Some "Success! Created app_modules.zip") /\
  (forall source code fs1,
     fs !! resolve input_py = Some (File source) ->
     source_to_code source = Ok code ->
     makedirs fs (resolve output_dir) = Ok fs1 ->
     fs1 !! pyc_path output_dir <> Some Dir ->
     fs1 !! zip_path output_dir <> Some Dir ->
     exists fs' out, run = (Returned, fs', out)) /\
  (fs !! resolve input_py = None ->
     run = (Exit 1, fs,
            ["Error: Input file " +:+ resolve input_py +:+
             " does not exist"]) /\
     exit_status (fst (fst run)) <> 0) /\
  (forall fs1 e,
     is_Some (fs !! resolve input_py) ->
     makedirs fs (resolve output_dir) = Ok fs1 ->
     py_compile fs1 (resolve input_py) (pyc_path output_dir) = Raise e ->
     exists out,
       run = (Exit 1, fs1, out) /\
       last out = Some ("Compilation failed: " +:+ exn_str e) /\
       exit_status (fst (fst run)) <> 0).
Proof.
  simpl. repeat apply conj.
  - intros fs' out Hrun.
    destruct (build_assets_returned _ _ _ _ _ Hrun)
      as (source & code & fs1 & Hsrc & Hcode & Hmk & Hpyc & Hzip).
    pose proof (build_assets_runs _ _ _ _ _ _ Hsrc Hcode Hmk Hpyc Hzip)
      as Hrun'.
    rewrite Hrun in Hrun'. injection Hrun' as -> ->.
    exists source, code, fs1. repeat apply conj; try assumption.
    + rewrite lookup_delete_ne by apply not_eq_sym, zip_path_ne_pyc_path.
      apply lookup_insert_eq.
    + apply lookup_delete_eq.
    + intros p Hp1 Hp2.
      rewrite lookup_delete_ne, !lookup_insert_ne by auto. reflexivity.
    + reflexivity.
  - intros source code fs1 Hsrc Hcode Hmk Hpyc Hzip.
    rewrite (build_assets_runs _ _ _ _ _ _ Hsrc Hcode Hmk Hpyc Hzip).
    eauto.
  - intros Hnone. unfold build_assets, path_exists. rewrite Hnone.
    split; [reflexivity|discriminate].
  - intros fs1 e [n Hn] Hmk Hpc. unfold build_assets, path_exists.
    rewrite Hn; simpl. rewrite Hmk.
    fold (pyc_path output_dir). rewrite Hpc.
    eexists. split; [reflexivity|]. split; [reflexivity|discriminate].
Qed.

Lemma build_assets_packages_witness :
  (exists fs' out,
     @main Sample.tools ["build_assets.py"; "/src/process.py"; "/out"]
       Sample.fs0 = (Returned, fs', out)) /\
  (exists out,
     @main Sample.tools ["build_assets.py"; "/src/broken.py"; "/out"]
       Sample.fs0 = (Exit 1, <["/out" := Dir]> Sample.fs0, out) /\
     last out = Some "Compilation failed: SyntaxError: invalid syntax").
Proof.
  split.
  - destruct (@build_assets_packages Sample.tools "build_assets.py"
                "/src/process.py" "/out" Sample.fs0) as (_ & Hruns & _).
    apply (Hruns "import os" "pyc import os" (<["/out" := Dir]> Sample.fs0)).
    + vm_compute. reflexivity.
    + reflexivity.
    + vm_compute. reflexivity.
    + vm_compute. discriminate.
    + vm_compute. discriminate.
  - destruct (@build_assets_packages Sample.tools "build_assets.py"
                "/src/broken.py" "/out" Sample.fs0) as (_ & _ & _ & Hfails).
    destruct (Hfails (<["/out" := Dir]> Sample.fs0)
                (mkExn PyCompileError "SyntaxError: invalid syntax"))
      as (out & Hrun & Hlast & _).
    + vm_compute. eauto.
    + vm_compute. reflexivity.
    + vm_compute. reflexivity.
    + exists out. split; assumption.
Defined.

(** C10. When the input source file does not exist, [build_assets] prints
    its error and leaves through [sys.exit(1)] with the file system exactly
    as it found it: the output directory has not been made, and neither the
    byte code nor the archive has been written. *)
Theorem missing_input_changes_nothing `{TOOLS : Tools}
    (input_py output_dir : string) (fs : FS) :
  fs !! resolve input_py = None ->
  build_assets input_py output_dir fs =
    (Exit 1, fs,
     ["Error: Input file " +:+ resolve input_py +:+ " does not exist"]) /\
  exit_status (Exit 1) <> 0 /\
  (forall fs' o out,
     build_assets input_py output_dir fs = (o, fs', out) ->
     fs' = fs /\
     fs' !! resolve output_dir = fs !! resolve output_dir /\
     fs' !! pyc_path output_dir = fs !! pyc_path output_dir /\
     fs' !! zip_path output_dir = fs !! zip_path output_dir).
Proof.
  intros Hnone.
  assert (Hrun : build_assets input_py output_dir fs =
    (Exit 1, fs,
     ["Error: Input file " +:+ resolve input_py +:+ " does not exist"])).
  { unfold build_assets, path_exists. rewrite Hnone. reflexivity. }
  split; [exact Hrun|]. split; [discriminate|].
  intros fs' o out H. rewrite Hrun in H. injection H as <- <- <-. auto.
Qed.

Lemma missing_input_changes_nothing_witness :
  @build_assets Sample.tools "/src/none.py" "/out" Sample.fs0 =
  (Exit 1, Sample.fs0, ["Error: Input file /src/none.py does not exist"]).
Proof.
  apply (@missing_input_changes_nothing Sample.tools "/src/none.py" "/out"
           Sample.fs0).
  vm_compute. reflexivity.
Defined.

(* ===================================================================== *)
(** * More on the font cache *)
(* ===================================================================== *)

Section FontLookup.
Context `{PIL : Imaging} `{HOST : Host}.

(** The loop over the font files finds the first one that loads, and
    leaves the processor alone. *)
Lemma try_truetype_first fps sz st :
  fst (try_truetype fps sz st) = Ok (first_loadable fps sz) /\
  self (snd (try_truetype fps sz st)) = self st.
Proof.
  revert st. induction fps as [|fp rest IH]; intros st; simpl.
  - auto.
  - unfold try_except, bind, lib.
    destruct (ImageFont_truetype fp sz) as [font|e]; simpl; [auto|].
    destruct (IH (log_raised e st)) as [Hfound Hself].
    split; [exact Hfound|rewrite Hself; reflexivity].
Qed.

(** What a call on a size that is not cached returns and leaves behind. *)
Lemma _get_font_miss sz st :
  _font_cache (self st) !! sz = None ->
  fst (_get_font sz st) = font_for sz /\
  (forall font, font_for sz = Ok font ->
     self (snd (_get_font sz st)) =
     mkImageProcessor
       (<[sz := font]>
          (if (10 <? size (_font_cache (self st)))%nat then ∅
           else _font_cache (self st)))) /\
  (forall e, font_for sz = Raise e -> self (snd (_get_font sz st)) = self st).
Proof.
  intros Hmiss. destruct (_get_font sz st) as [r st'] eqn:Hrun; simpl.
  unfold _get_font in Hrun. rewrite Hmiss in Hrun.
  destruct (try_truetype_first font_paths sz st) as [Hfound Hself].
  unfold bind at 1 in Hrun.
  unfold font_for. remember (first_loadable font_paths sz) as found.
  destruct (try_truetype font_paths sz st) as [r1 st1].
  cbn [fst snd] in Hfound, Hself. subst r1. clear Heqfound.
  destruct found as [font|].
  - unfold bind, ret, cache_store in Hrun. inversion Hrun; subst; simpl.
    rewrite Hself. repeat split; [|discriminate].
    intros font' H. inversion H; subst. reflexivity.
  - unfold bind at 1, lib in Hrun.
    destruct ImageFont_load_default as [font|e].
    + unfold bind, ret, cache_store in Hrun. inversion Hrun; subst; simpl.
      rewrite Hself. repeat split; [|discriminate].
      intros font' H. inversion H; subst. reflexivity.
    + inversion Hrun; subst; simpl.
      repeat split; [discriminate|]. intros _ _. exact Hself.
Qed.

Lemma _get_font_sound sz st :
  cache_sound (self st) ->
  fst (_get_font sz st) = font_for sz /\
  cache_sound (self (snd (_get_font sz st))).
Proof.
  intros Hsound.
  destruct (_font_cache (self st) !! sz) as [font|] eqn:Hlook.
  - unfold _get_font. rewrite Hlook; simpl.
    split; [symmetry; apply Hsound, Hlook|exact Hsound].
  - destruct (_get_font_miss sz st Hlook) as (Hres & Hok & Hfail).
    split; [exact Hres|].
    destruct (font_for sz) as [font|e] eqn:Hfont.
    + rewrite (Hok font eq_refl). intros sz' font' Hin; simpl in Hin.
      destruct (decide (sz = sz')) as [->|Hne].
      * rewrite lookup_insert_eq in Hin. congruence.
      * rewrite lookup_insert_ne in Hin by exact Hne.
        destruct (10 <? size (_font_cache (self st)))%nat.
        -- rewrite lookup_empty in Hin. discriminate.
        -- apply Hsound, Hin.
    + rewrite (Hfail e eq_refl). exact Hsound.
Qed.

Lemma get_font_calls_sound sizes st :
  cache_sound (self st) -> cache_sound (self (get_font_calls sizes st)).
Proof.
  revert st. induction sizes as [|sz rest IH]; intros st Hsound; simpl.
  - exact Hsound.
  - apply IH, _get_font_sound, Hsound.
Qed.

Lemma cache_sound_init : cache_sound __init__.
Proof. intros sz font H. simpl in H. rewrite lookup_empty in H. discriminate. Qed.

End FontLookup.

(** X1. A font that [_get_font] has returned is returned again by the next
    call for the same size, and that call changes nothing: the cache, the
    file system, the clock and the record of what library calls raised
    are as the first call left them. *)
Theorem get_font_again `{PIL : Imaging}
    (sz : Z) (st st' : St) (font : Font) :
  _get_font sz st = (Ok font, st') ->
  _get_font sz st' = (Ok font, st').
Proof.
  unfold _get_font at 1.
  destruct (_font_cache (self st) !! sz) as [cached|] eqn:Hlook.
  - intros H. inversion H; subst. unfold _get_font. rewrite Hlook.
    reflexivity.
  - intros H.
    apply bind_Ok in H as (found & st1 & _ & H).
    apply bind_Ok in H as (font1 & st2 & _ & H).
    apply bind_Ok in H as ([] & st3 & Hstore & H).
    apply ret_Ok in H as [-> ->].
    unfold cache_store in Hstore. inversion Hstore; subst; clear Hstore.
    unfold _get_font; simpl. rewrite lookup_insert_eq. reflexivity.
Qed.

Lemma get_font_again_witness :
  let st := snd (@_get_font Demo.sym_imaging 48 Demo.st0) in
  @_get_font Demo.sym_imaging 48 st = (Ok "default", st) /\
  raised (world st) =
    [ mkExn OSError "cannot open resource";
      mkExn OSError "cannot open resource" ].
Proof.
  simpl. split.
  - apply (@get_font_again Demo.sym_imaging 48 Demo.st0). vm_compute.
    reflexivity.
  - vm_compute. reflexivity.
Defined.

(** X2. The cache never changes what [_get_font] returns: on a processor
    that started new, after calls with any sizes, a call returns the font
    of the first font file of [font_paths] that loads at that size, or
    else the default font, or else raises what loading the default font
    raises - whether the size was cached or not. *)
Theorem get_font_is_font_for `{PIL : Imaging}
    (sizes : list Z) (w : World) (sz : Z) :
  fst (_get_font sz (get_font_calls sizes (mkSt __init__ w))) =
  match first_loadable font_paths sz with
  | Some font => Ok font
  | None => ImageFont_load_default
  end.
Proof.
  apply _get_font_sound, get_font_calls_sound. exact cache_sound_init.
Qed.

(* ===================================================================== *)
(** * The shadow of the label *)
(* ===================================================================== *)

Local Open Scope list_scope.

Section Ranges.

Lemma range_length lo hi : List.length (range lo hi) = Z.to_nat (hi - lo).
Proof. unfold range. rewrite length_map, length_seq. reflexivity. Qed.

Lemma range_elem lo hi x : x ∈ range lo hi -> lo <= x < hi.
Proof.
  unfold range. intros Hin. apply list_elem_of_fmap in Hin as (i & -> & Hi).
  apply list_elem_of_In, in_seq in Hi. lia.
Qed.

Lemma range_empty lo hi : hi <= lo -> range lo hi = [].
Proof.
  intros Hle. unfold range. replace (Z.to_nat (hi - lo)) with O by lia.
  reflexivity.
Qed.

Lemma range_cons lo hi : lo < hi -> range lo hi = lo :: range (lo + 1) hi.
Proof.
  intros Hlt. unfold range.
  replace (Z.to_nat (hi - lo)) with (S (Z.to_nat (hi - (lo + 1)))) by lia.
  simpl. f_equal; [lia|].
  rewrite <- seq_shift, map_map. apply map_ext. intros i. lia.
Qed.

Lemma range_split lo mid hi :
  lo <= mid <= hi -> range lo hi = range lo mid ++ range mid hi.
Proof.
  intros Hle. remember (Z.to_nat (mid - lo)) as n eqn:Hn.
  revert lo Hle Hn. induction n as [|n IH]; intros lo Hle Hn.
  - assert (lo = mid) as -> by lia.
    rewrite (range_empty mid mid) by lia. reflexivity.
  - rewrite (range_cons lo hi), (range_cons lo mid) by lia.
    simpl. f_equal. apply IH; lia.
Qed.

Lemma range_one x : range x (x + 1) = [x].
Proof.
  rewrite range_cons, range_empty by lia. reflexivity.
Qed.

End Ranges.

Section Loops.
Context `{PIL : Imaging} `{HOST : Host}.

Lemma bind_ext {A B} (m : M A) (k1 k2 : A -> M B) st :
  (forall a st', k1 a st' = k2 a st') -> bind m k1 st = bind m k2 st.
Proof.
  intros Hk. unfold bind. destruct (m st) as [[a|e] st']; [apply Hk|].
  reflexivity.
Qed.

Lemma bind_ret_r {A} (m : M A) st : bind m ret st = m st.
Proof. unfold bind, ret. destruct (m st) as [[a|e] st']; reflexivity. Qed.

Lemma bind_assoc {A B C} (m : M A) (k : A -> M B) (h : B -> M C) st :
  bind (bind m k) h st = bind m (fun a => bind (k a) h) st.
Proof. unfold bind. destruct (m st) as [[a|e] st']; reflexivity. Qed.

(** A loop over two lists in a row is the two loops in a row. *)
Lemma for_each_app {A B} (f : A -> B -> M A) (l1 l2 : list B) a st :
  for_each f (l1 ++ l2) a st = bind (for_each f l1 a) (for_each f l2) st.
Proof.
  revert a st. induction l1 as [|b l1 IH]; intros a st; simpl.
  - reflexivity.
  - rewrite bind_assoc. apply bind_ext. intros a' st'. apply IH.
Qed.

(** A loop whose body is itself a loop over [g b] is one loop over all of
    them. *)
Lemma for_each_flatten {A B C} (h : A -> B -> M A) (f : A -> C -> M A)
    (g : B -> list C) :
  (forall a b st, h a b st = for_each f (g b) a st) ->
  forall l a st, for_each h l a st = for_each f (flat_map g l) a st.
Proof.
  intros Hh l. induction l as [|b l IH]; intros a st; simpl.
  - reflexivity.
  - rewrite for_each_app. unfold bind at 1. rewrite Hh. unfold bind.
    destruct (for_each f (g b) a st) as [[a'|e] st']; [apply IH|].
    reflexivity.
Qed.

End Loops.

Section Offsets.

(** One row of the shadow: the offsets with first component [ox]. *)
Let row (ox : Z) (oy : Z) : list (Z * Z) :=
  if negb (Z.eqb ox 0) || negb (Z.eqb oy 0) then [(ox, oy)] else [].

Lemma row_length_off_axis ox (l : list Z) :
  ox <> 0 -> List.length (flat_map (row ox) l) = List.length l.
Proof.
  intros Hox. induction l as [|oy l IH]; simpl; [reflexivity|].
  unfold row at 1. apply Z.eqb_neq in Hox. rewrite Hox; simpl.
  rewrite IH. reflexivity.
Qed.

Lemma row_length_on_axis (l : list Z) :
  (forall oy, oy ∈ l -> oy <> 0) -> List.length (flat_map (row 0) l) = List.length l.
Proof.
  induction l as [|oy l IH]; intros Hl; simpl; [reflexivity|].
  unfold row at 1. simpl.
  assert (Hoy : oy <> 0) by (apply Hl; left).
  apply Z.eqb_neq in Hoy. rewrite Hoy; simpl.
  rewrite IH; [reflexivity|]. intros oy' Hin. apply Hl. right. exact Hin.
Qed.

Lemma rows_length (l rng : list Z) :
  (forall ox, ox ∈ l -> ox <> 0) ->
  List.length (flat_map (fun ox => flat_map (row ox) rng) l) =
  (List.length l * List.length rng)%nat.
Proof.
  induction l as [|ox l IH]; intros Hl; simpl; [reflexivity|].
  rewrite List.length_app, row_length_off_axis by (apply Hl; left).
  rewrite IH; [reflexivity|]. intros ox' Hin. apply Hl. right. exact Hin.
Qed.

Lemma shadow_offsets_length s :
  0 <= s ->
  Z.of_nat (List.length (shadow_offsets s)) = (2 * s + 1) ^ 2 - 1.
Proof.
  intros Hs. unfold shadow_offsets. fold row.
  set (rng := range (- s) (s + 1)).
  assert (Hrng : rng = range (- s) 0 ++ [0] ++ range 1 (s + 1)).
  { unfold rng. rewrite (range_split (- s) 0 (s + 1)) by lia.
    rewrite (range_split 0 1 (s + 1)) by lia. reflexivity. }
  assert (Hlen : List.length rng = Z.to_nat (2 * s + 1)).
  { unfold rng. rewrite range_length. f_equal. lia. }
  assert (Haxis : List.length (flat_map (row 0) rng) = Z.to_nat (2 * s)).
  { rewrite Hrng, !flat_map_app, !List.length_app.
    rewrite (row_length_on_axis (range (- s) 0)),
      (row_length_on_axis (range 1 (s + 1))), !range_length.
    - simpl. lia.
    - intros oy Hin. apply range_elem in Hin. lia.
    - intros oy Hin. apply range_elem in Hin. lia. }
  rewrite Hrng at 1. rewrite !flat_map_app, !List.length_app.
  rewrite (rows_length (range (- s) 0)), (rows_length (range 1 (s + 1))),
    !range_length, Hlen.
  - cbn [flat_map]. unfold row in Haxis. rewrite app_nil_r, Haxis. nia.
  - intros ox Hin. apply range_elem in Hin. lia.
  - intros ox Hin. apply range_elem in Hin. lia.
Qed.

Lemma shadow_offsets_off_centre s : (0, 0) ∉ shadow_offsets s.
Proof.
  unfold shadow_offsets. intros Hin.
  apply list_elem_of_In, in_flat_map in Hin as (ox & _ & Hin).
  apply in_flat_map in Hin as (oy & _ & Hin).
  destruct (negb (Z.eqb ox 0) || negb (Z.eqb oy 0)) eqn:Hcond.
  - destruct Hin as [Heq|[]]. inversion Heq; subst. discriminate.
  - destruct Hin.
Qed.

End Offsets.

(** X3. The shadow is the text drawn in black once at every offset
    (ox, oy) with both components between [-shadow_off] and [shadow_off],
    in the order of the two loops, except at the offset (0, 0): for
    [shadow_off = s] that is (2s + 1)^2 - 1 copies. With the font size
    always between 24 and 300, [shadow_off] is between 3 and 15, so a label
    costs between 48 and 960 shadow copies. *)
Theorem shadow_copies `{PIL : Imaging} (font : Font) (x y : Z) (img : Image) :
  (forall (font_size : Z) (st : St),
     draw_shadow font font_size x y img st =
     for_each (draw_copy font x y)
       (shadow_offsets (Z.max 3 (font_size / 20))) img st) /\
  (forall s : Z,
     0 <= s ->
     Z.of_nat (List.length (shadow_offsets s)) = (2 * s + 1) ^ 2 - 1 /\
     (0, 0) ∉ shadow_offsets s) /\
  (forall height : Z,
     24 <= font_size_of height <= 300 /\
     3 <= Z.max 3 (font_size_of height / 20) <= 15 /\
     48 <= Z.of_nat (List.length (shadow_offsets
                               (Z.max 3 (font_size_of height / 20)))) <= 960).
Proof.
  split; [|split].
  - intros font_size st. unfold draw_shadow, shadow_offsets.
    apply for_each_flatten. intros img' ox st'.
    apply for_each_flatten. intros img'' oy st''.
    destruct (negb (Z.eqb ox 0) || negb (Z.eqb oy 0)); simpl.
    + unfold draw_copy; simpl. symmetry. apply bind_ret_r.
    + reflexivity.
  - intros s Hs. split.
    + apply shadow_offsets_length, Hs.
    + apply shadow_offsets_off_centre.
  - intros height.
    assert (Hsize : 24 <= font_size_of height <= 300).
    { unfold font_size_of. generalize (height ÷ 10). intros q. lia. }
    assert (Hoff : 3 <= Z.max 3 (font_size_of height / 20) <= 15).
    { split; [lia|]. apply Z.max_lub; [lia|].
      apply Z.div_le_upper_bound; lia. }
    split; [exact Hsize|]. split; [exact Hoff|].
    rewrite shadow_offsets_length by lia. nia.
Qed.

Lemma shadow_copies_witness :
  Z.of_nat (List.length (shadow_offsets 3)) = 48 /\ (0, 0) ∉ shadow_offsets 3.
Proof.
  destruct (@shadow_copies Demo.sym_imaging "default" 0 0
              (Demo.mkSym (640, 480) "RGB" [])) as (_ & Hcount & _).
  apply (Hcount 3). lia.
Defined.

(* ===================================================================== *)
(** * What validation lets through, and what a run reports and touches *)
(* ===================================================================== *)

(** X4. Validation accepts nothing but a string that is not empty, names
    an existing regular file and has a supported extension; the message it
    returns with its acceptance is empty, and it has changed nothing. An
    integer or a boolean, which [os.path.exists] and [os.path.isfile] take
    for a file descriptor, is never accepted. *)
Theorem validated_is_regular_file `{PIL : Imaging} `{HOST : Host}
    (path : PyVal) (st st' : St) (err : string) :
  _validate_input path st = (Ok (true, err), st') ->
  exists p data : string,
    path = PStr p /\ p <> "" /\
    fs (world st) !! p = Some (File data) /\
    extension p ∈ SUPPORTED_FORMATS /\
    err = "" /\ st' = st.
Proof.
  intros Hval.
  assert (Hstr : exists p, path = PStr p).
  { unfold _validate_input in Hval.
    destruct (negb (truthy path)).
    { apply ret_Ok in Hval as [Heq _]. discriminate. }
    apply bind_Ok in Hval as (found & st1 & _ & Hval).
    destruct (negb found).
    { apply ret_Ok in Hval as [Heq _]. discriminate. }
    apply bind_Ok in Hval as (regular & st2 & _ & Hval).
    destruct (negb regular).
    { apply ret_Ok in Hval as [Heq _]. discriminate. }
    apply bind_Ok in Hval as (p & st3 & Hp & _).
    apply lib_Ok in Hp as [Hp _].
    destruct path; simpl in Hp; inversion Hp. eauto. }
  destruct Hstr as [p ->].
  rewrite _validate_input_str in Hval. inversion Hval as [[Hverdict Hst]].
  unfold verdict in Hverdict.
  destruct (String.eqb p "") eqn:Hempty; [discriminate|].
  apply String.eqb_neq in Hempty.
  destruct (fs (world st) !! p) as [[data|]|] eqn:Hnode; try discriminate.
  destruct (bool_decide (extension p ∈ SUPPORTED_FORMATS)) eqn:Hext;
    [|discriminate].
  apply bool_decide_eq_true_1 in Hext. inversion Hverdict. subst.
  exists p, data. repeat split; auto.
Qed.

Lemma validated_is_regular_file_witness :
  exists p data : string,
    PStr "/in/leaf.png" = PStr p /\ p <> "" /\
    Demo.fs0 !! p = Some (File data) /\
    extension p ∈ SUPPORTED_FORMATS /\ "" = "" /\ Demo.st0 = Demo.st0.
Proof.
  apply (@validated_is_regular_file Demo.sym_imaging Demo.host_ok
           (PStr "/in/leaf.png") Demo.st0 Demo.st0 "").
  vm_compute. reflexivity.
Defined.

(** X5. The metadata of a successful result describe the run: the input
    path is the one given; the original size and mode are those of the
    image as it was opened, before the conversion to RGB; the output size
    is the number of bytes of the file that now is at the output path; and
    the processing time is the clock reading that follows the one in the
    file name, in ISO format. *)
Theorem success_metadata `{PIL : Imaging} `{HOST : Host}
    (input dir : PyVal) (st st' : St) (r : PyVal) :
  process input dir st = (Ok r, st') ->
  status r = PStr "success" ->
  exists (p data out bytes : string) (opened : Image)
         (metadata : list (string * PyVal)),
    r = PDict [ ("status", PStr "success");
                ("output_image_path", PStr out);
                ("metadata", PDict metadata) ] /\
    input = PStr p /\
    fs (world st) !! p = Some (File data) /\
    Image_open data = Ok opened /\
    fs (world st') !! out = Some (File bytes) /\
    dict_get metadata "input_path" = input /\
    dict_get metadata "original_size" =
      PList [PInt (fst (img_size opened)); PInt (snd (img_size opened))] /\
    dict_get metadata "original_mode" = PStr (img_mode opened) /\
    dict_get metadata "output_size_bytes" =
      PInt (Z.of_nat (String.length bytes)) /\
    dict_get metadata "processed_at" =
      PStr (isoformat (clock (S (ticks (world st))))).
Proof.
  intros Hrun Hstatus.
  apply process_success in Hrun as (_ & _ & Hbody); [|exact Hstatus].
  apply process_body_Ok in Hbody
    as (p & data & opened & rgb & sharp & edged & contrasted & smooth &
        labelled & out & bytes & st_a & st_b & st_c &
        Hin & Hfile & Hopen & Hrgb & Hsharp & Hedge & Hcon & Hsmooth &
        Hlabel & Hgen & Henc & Hfs & Hclk & ->).
  apply _generate_output_path_Ok in Hgen
    as (d & p' & _ & _ & _ & Hticks & _).
  destruct (keeps_world_to_rgb _ _ _ _ Hrgb) as (_ & _ & Hticks_a).
  destruct (keeps_world_draw_label _ _ _ _ Hlabel) as (_ & _ & Hticks_b).
  rewrite Hticks_b, Hticks_a in Hticks.
  eexists p, data, out, bytes, opened, _.
  split; [reflexivity|].
  repeat apply conj; try assumption; try reflexivity.
  - rewrite Hfs. apply lookup_insert_eq.
  - simpl. rewrite Hticks. reflexivity.
Qed.

Lemma success_metadata_witness :
  exists (out bytes : string) (metadata : list (string * PyVal)),
    fs (world (snd Demo.run0)) !! out = Some (File bytes) /\
    dict_get metadata "output_size_bytes" =
      PInt (Z.of_nat (String.length bytes)).
Proof.
  destruct (@success_metadata Demo.sym_imaging Demo.host_ok
              (PStr "/in/leaf.png") (PStr "/out") Demo.st0 (snd Demo.run0)
              (Demo.result_of Demo.run0))
    as (p & data & out & bytes & opened & metadata & _ & _ & _ & _ &
        Hout & _ & _ & _ & Hbytes & _).
  - vm_compute. reflexivity.
  - vm_compute. reflexivity.
  - exists out, bytes, metadata. split; assumption.
Defined.

Section Touches.
Context `{PIL : Imaging} `{HOST : Host}.






End Touches.



(* ===================================================================== *)
(** * The processor of the module, request after request *)
(* ===================================================================== *)

Section Preserved.
Context `{PIL : Imaging} `{HOST : Host}.
Variable P : ImageProcessor -> Prop.

Lemma preserves_ret {A} (a : A) : preserves P (ret a).
Proof. intros st r st' H HP. inversion H; subst. exact HP. Qed.

Lemma preserves_lib {A} (r : Res A) : preserves P (lib r).
Proof.
  intros st r' st' H HP. unfold lib in H.
  destruct r; inversion H; subst; exact HP.
Qed.

Lemma preserves_lib_fs {A} (f : FS -> FDs -> Res A) : preserves P (lib_fs f).
Proof. intros st r st' H. exact (preserves_lib _ _ _ _ H). Qed.

Lemma preserves_set_fs fs' : preserves P (set_fs fs').
Proof. intros st r st' H HP. inversion H; subst. exact HP. Qed.

Lemma preserves_datetime_now : preserves P datetime_now.
Proof. intros st r st' H HP. inversion H; subst. exact HP. Qed.

Lemma preserves_bind {A B} (m : M A) (k : A -> M B) :
  preserves P m -> (forall a, preserves P (k a)) -> preserves P (bind m k).
Proof.
  intros Hm Hk st r st' H HP.
  apply bind_inv in H as [(e & H & _)|(a & st1 & H1 & H2)].
  - exact (Hm _ _ _ H HP).
  - exact (Hk a _ _ _ H2 (Hm _ _ _ H1 HP)).
Qed.

Lemma preserves_try_except {A} (m : M A) (h : Exn -> M A) :
  preserves P m -> (forall e, preserves P (h e)) ->
  preserves P (try_except m h).
Proof.
  intros Hm Hh st r st' H HP. unfold try_except in H.
  destruct (m st) as [[a|e] st1] eqn:Hrun.
  - inversion H; subst. exact (Hm _ _ _ Hrun HP).
  - exact (Hh e _ _ _ H (Hm _ _ _ Hrun HP)).
Qed.

Lemma preserves_for_each {A B} (f : A -> B -> M A) (l : list B) (a : A) :
  (forall a b, preserves P (f a b)) -> preserves P (for_each f l a).
Proof.
  intros Hf. revert a. induction l as [|b rest IH]; intros a; simpl.
  - apply preserves_ret.
  - apply preserves_bind; [apply Hf|exact IH].
Qed.

(** A run of [process] changes the processor by calls of [_get_font]
    only. *)
Lemma preserves_process input dir :
  (forall sz, preserves P (_get_font sz)) -> preserves P (process input dir).
Proof.
  intros Hfont. unfold process, process_body, _validate_input, to_rgb,
    enhance, draw_label, draw_shadow, _generate_output_path, img_save.
  repeat first
    [ apply preserves_bind; [|intros ?]
    | apply preserves_try_except; [|intros ?]
    | apply preserves_for_each; intros ? ?
    | apply preserves_ret | apply preserves_lib | apply preserves_lib_fs
    | apply preserves_set_fs | apply preserves_datetime_now | apply Hfont
    | match goal with
      | |- context [if ?b then _ else _] => destruct b
      | |- context [let '(_, _) := ?x in _] => destruct x
      end ].
  intros st r st' H HP. inversion H; subst. exact HP.
Qed.

End Preserved.

Section Served.
Context `{PIL : Imaging} `{HOST : Host}.

(** The cache holds at most 11 fonts, each the font of its size. *)
Let cache_ok (p : ImageProcessor) : Prop :=
  (size (_font_cache p) <= 11)%nat /\ cache_sound p.

Lemma cache_ok__get_font sz : preserves cache_ok (_get_font sz).
Proof.
  intros st r st' Hrun [Hbound Hsound].
  pose proof (_get_font_cache_bound sz st Hbound) as Hbound'.
  pose proof (_get_font_sound sz st Hsound) as [_ Hsound'].
  rewrite Hrun in Hbound', Hsound'. split; assumption.
Qed.

Lemma cache_ok_init : cache_ok __init__.
Proof.
  split; [|exact cache_sound_init]. simpl. rewrite map_size_empty. lia.
Qed.

Lemma process_image_json_cache_ok input_json g :
  (forall p, _processor g = Some p -> cache_ok p) ->
  forall p, _processor (snd (process_image_json input_json g)) = Some p ->
            cache_ok p.
Proof.
  intros Hok. unfold process_image_json.
  destruct (json_loads input_json) as [data|e]; [|simpl; auto].
  destruct data; simpl; auto.
  destruct (negb (truthy (dict_get items "input_image_path"))); simpl; auto.
  assert (Hgot : cache_ok (fst (get_processor g))).
  { unfold get_processor. destruct (_processor g) as [p|] eqn:Hp; simpl.
    - apply Hok. reflexivity.
    - exact cache_ok_init. }
  destruct (get_processor g) as [processor g1]; simpl in Hgot.
  destruct (process (dict_get items "input_image_path")
              (dict_get items "output_dir") (mkSt processor (g_world g1)))
    as [r st'] eqn:Hrun.
  pose proof (preserves_process cache_ok _ _ cache_ok__get_font
                _ _ _ Hrun Hgot) as Hafter.
  destruct r; simpl; intros p Hp; inversion Hp; subst; exact Hafter.
Qed.

Lemma process_image_json_keeps_processor input_json g :
  is_Some (_processor g) ->
  is_Some (_processor (snd (process_image_json input_json g))).
Proof.
  intros Hsome. unfold process_image_json.
  destruct (json_loads input_json) as [data|e]; [|simpl; auto].
  destruct data; simpl; auto.
  destruct (negb (truthy (dict_get items "input_image_path"))); simpl; auto.
  destruct (get_processor g) as [processor g1].
  destruct (process _ _ _) as [[r|e] st']; simpl; eauto.
Qed.

Lemma serve_cache_ok requests g :
  (forall p, _processor g = Some p -> cache_ok p) ->
  forall p, _processor (serve requests g) = Some p -> cache_ok p.
Proof.
  revert g. induction requests as [|input_json rest IH]; intros g Hok; simpl.
  - exact Hok.
  - apply IH. apply process_image_json_cache_ok, Hok.
Qed.

Lemma serve_keeps_processor requests g :
  is_Some (_processor g) -> is_Some (_processor (serve requests g)).
Proof.
  revert g. induction requests as [|input_json rest IH]; intros g Hsome;
    simpl.
  - exact Hsome.
  - apply IH, process_image_json_keeps_processor, Hsome.
Qed.

End Served.

(** X7. However many requests the module has answered, and whatever they
    were, the processor it keeps - if it has made one - has a cache of at
    most 11 fonts, each of them the font that the library gives for its
    size; and once made, the processor is never dropped. *)
Theorem served_processor `{PIL : Imaging} `{HOST : Host}
    (requests : list string) :
  (forall (w : World) (p : ImageProcessor),
     _processor (serve requests (mkGlob None w)) = Some p ->
     (size (_font_cache p) <= 11)%nat /\
     forall sz font,
       _font_cache p !! sz = Some font ->
       match first_loadable font_paths sz with
       | Some font => Ok font
       | None => ImageFont_load_default
       end = Ok font) /\
  (forall g : Glob,
     is_Some (_processor g) -> is_Some (_processor (serve requests g))).
Proof.
  split.
  - intros w p Hp.
    apply (serve_cache_ok requests (mkGlob None w)); [|exact Hp].
    intros p' Hp'. discriminate.
  - intros g. apply serve_keeps_processor.
Qed.

Lemma served_processor_witness :
  exists p,
    _processor
      (@serve Demo.sym_imaging Demo.host_json
         [Demo.doc_leaf; Demo.doc_list; Demo.doc_leaf] Demo.glob0) = Some p /\
    (size (_font_cache p) <= 11)%nat.
Proof.
  destruct (_processor
              (@serve Demo.sym_imaging Demo.host_json
                 [Demo.doc_leaf; Demo.doc_list; Demo.doc_leaf] Demo.glob0))
    as [p|] eqn:Hp.
  - exists p. split; [reflexivity|].
    destruct (@served_processor Demo.sym_imaging Demo.host_json
                [Demo.doc_leaf; Demo.doc_list; Demo.doc_leaf]) as [Hcache _].
    exact (proj1 (Hcache Demo.world0 p Hp)).
  - vm_compute in Hp. discriminate.
Defined.

(* ===================================================================== *)
(** * Requests that raise, and the command line *)
(* ===================================================================== *)

Section Requests.
Context `{PIL : Imaging} `{HOST : Host}.

Lemma process_not_a_path v dir st :
  PIL_AVAILABLE = true ->
  not_a_path v = true ->
  let e := mkExn TypeError
             ("stat: path should be string, bytes, os.PathLike or integer, not "
              +:+ type_name v) in
  process v dir st = (Raise e, log_raised e st).
Proof.
  intros Hpil Hv. simpl. unfold process. rewrite Hpil; simpl.
  unfold not_a_path in Hv.
  destruct v as [| | |bits| |[|x items]|[|x items]]; try discriminate;
    unfold _validate_input; try rewrite Hv; reflexivity.
Qed.

End Requests.

(** X8. With Pillow imported, a request whose "input_image_path" is a
    non-empty array, a non-empty object or a float other than zero makes
    [process_image_json] raise the [TypeError] of [os.stat]: the value is
    truthy, so it is not reported as missing, and [os.path.exists] is
    called on it outside the [try] of [process]. By then the processor has
    been made; no file has been touched. *)
Theorem process_image_json_type_error `{PIL : Imaging} `{HOST : Host}
    (input_json : string) (items : list (string * PyVal)) (g : Glob) :
  PIL_AVAILABLE = true ->
  json_loads input_json = Ok (PDict items) ->
  not_a_path (dict_get items "input_image_path") = true ->
  exists g',
    process_image_json input_json g =
    (Raise (mkExn TypeError
              ("stat: path should be string, bytes, os.PathLike or integer, not "
               +:+ type_name (dict_get items "input_image_path"))), g') /\
    is_Some (_processor g') /\
    fs (g_world g') = fs (g_world g).
Proof.
  intros Hpil Hload Hv. unfold process_image_json. rewrite Hload.
  assert (Htruthy : truthy (dict_get items "input_image_path") = true).
  { destruct (dict_get items "input_image_path")
      as [| | |bits| |[|x l]|[|x l]]; try discriminate; auto. }
  rewrite Htruthy; simpl.
  assert (Hworld : g_world (snd (get_processor g)) = g_world g).
  { unfold get_processor. destruct (_processor g); reflexivity. }
  destruct (get_processor g) as [processor g1]; simpl in Hworld.
  rewrite (process_not_a_path _ _ _ Hpil Hv); simpl.
  eexists. split; [reflexivity|]. simpl. rewrite Hworld. eauto.
Qed.

Lemma process_image_json_type_error_witness :
  exists g',
    @process_image_json Demo.sym_imaging Demo.host_json
      Demo.doc_list Demo.glob0 =
    (Raise (mkExn TypeError
              "stat: path should be string, bytes, os.PathLike or integer, not list"),
     g') /\
    is_Some (_processor g') /\ fs (g_world g') = Demo.fs0.
Proof.
  apply (@process_image_json_type_error Demo.sym_imaging Demo.host_json
           Demo.doc_list [("input_image_path", PList [PInt 1])] Demo.glob0).
  - reflexivity.
  - vm_compute. reflexivity.
  - reflexivity.
Defined.

(** X9. The command line never raises on a request that the JSON reader
    reads back as it was written: it prints one line, the JSON text of an
    object with a "status" field. For the empty input path that object is
    the error "Missing input_image_path", and the processor is not
    called. *)
Theorem command_line_prints_status `{PIL : Imaging} `{HOST : Host}
    (input : string) (output_dir : option string) (g : Glob) :
  let request :=
    PDict [ ("input_image_path", PStr input);
            ("output_dir",
             match output_dir with Some d => PStr d | None => PNone end) ] in
  json_loads (json_dumps request) = Ok request ->
  (exists result,
     fst (__main__ input output_dir g) = Ok [json_dumps (PDict result)] /\
     dict_has result "status" = true) /\
  (input = "" ->
   __main__ input output_dir g =
   (Ok [json_dumps (PDict [ ("status", PStr "error");
                            ("error", PStr "Missing input_image_path") ])],
    g)).
Proof.
  simpl. intros Hround. unfold __main__, process_image_json.
  rewrite Hround. simpl dict_get.
  split.
  - destruct (negb (truthy (PStr input))); simpl.
    + eexists. split; reflexivity.
    + destruct (get_processor g) as [processor g1].
      match goal with
      | |- context [process (PStr input) ?dir ?st] =>
          destruct (process_str_returns input dir st)
            as (result & Hrun & Hstatus);
          destruct (process (PStr input) dir st) as [r st']
      end.
      simpl in Hrun. subst r. simpl. eauto.
  - intros ->. reflexivity.
Qed.

Lemma command_line_prints_status_witness :
  exists result,
    fst (@__main__ Demo.sym_imaging Demo.host_cli "/in/leaf.png" None
           Demo.glob0) =
    Ok [@json_dumps Demo.host_cli (PDict result)] /\
    dict_has result "status" = true.
Proof.
  apply (@command_line_prints_status Demo.sym_imaging Demo.host_cli
           "/in/leaf.png" None Demo.glob0).
  vm_compute. reflexivity.
Defined.

(* ===================================================================== *)
(** * The module search path *)
(* ===================================================================== *)

Section SearchPath.
Variable fs : FS.

Lemma os_path_exists_str (fds : FDs) (p : string) :
  os_path_exists fs fds (PStr p) = Ok (bool_decide (is_Some (fs !! p))).
Proof.
  unfold os_path_exists; simpl. destruct (fs !! p) as [n|]; reflexivity.
Qed.

Lemma add_to_sys_path_cons p pkgs sys_path :
  add_to_sys_path (p :: pkgs) fs sys_path =
  add_to_sys_path pkgs fs
    (if bool_decide (is_Some (fs !! p)) && negb (bool_decide (p ∈ sys_path))
     then p :: sys_path else sys_path).
Proof.
  unfold add_to_sys_path; simpl. rewrite os_path_exists_str.
  destruct (bool_decide (is_Some (fs !! p))),
    (bool_decide (p ∈ sys_path)); reflexivity.
Qed.

Lemma add_to_sys_path_suffix pkgs : forall sys_path,
  exists added,
    add_to_sys_path pkgs fs sys_path = added ++ sys_path /\
    (forall p, p ∈ added ->
               p ∈ pkgs /\ is_Some (fs !! p) /\ p ∉ sys_path) /\
    (NoDup sys_path -> NoDup (added ++ sys_path)).
Proof.
  induction pkgs as [|p pkgs IH]; intros sys_path.
  - exists []. split; [reflexivity|]. split; [|auto].
    intros p Hp. inversion Hp.
  - rewrite add_to_sys_path_cons.
    destruct (bool_decide (is_Some (fs !! p))) eqn:Hex; simpl.
    + destruct (bool_decide (p ∈ sys_path)) eqn:Hin; simpl.
      * destruct (IH sys_path) as (added & Heq & Hadded & Hnd).
        exists added. split; [exact Heq|]. split; [|exact Hnd].
        intros q Hq. destruct (Hadded q Hq) as (H1 & H2 & H3).
        split; [right; exact H1|auto].
      * apply bool_decide_eq_true in Hex.
        apply bool_decide_eq_false in Hin.
        destruct (IH (p :: sys_path)) as (added & Heq & Hadded & Hnd).
        exists (added ++ [p]). rewrite <- List.app_assoc. simpl.
        split; [exact Heq|]. split.
        -- intros q Hq. apply elem_of_app in Hq. destruct Hq as [Hq|Hq].
           ++ destruct (Hadded q Hq) as (H1 & H2 & H3).
              split; [right; exact H1|]. split; [exact H2|].
              intros Hq'. apply H3. right. exact Hq'.
           ++ apply list_elem_of_singleton in Hq. subst q.
              split; [left|auto].
        -- intros Hsp. apply Hnd. constructor; assumption.
    + destruct (IH sys_path) as (added & Heq & Hadded & Hnd).
      exists added. split; [exact Heq|]. split; [|exact Hnd].
      intros q Hq. destruct (Hadded q Hq) as (H1 & H2 & H3).
      split; [right; exact H1|auto].
Qed.

Lemma add_to_sys_path_keeps pkgs sys_path p :
  p ∈ sys_path -> p ∈ add_to_sys_path pkgs fs sys_path.
Proof.
  intros Hp. destruct (add_to_sys_path_suffix pkgs sys_path)
    as (added & -> & _).
  apply elem_of_app. right. exact Hp.
Qed.

Lemma add_to_sys_path_contains pkgs : forall sys_path p,
  p ∈ pkgs -> is_Some (fs !! p) ->
  p ∈ add_to_sys_path pkgs fs sys_path.
Proof.
  induction pkgs as [|q pkgs IH]; intros sys_path p Hp Hex.
  - inversion Hp.
  - rewrite add_to_sys_path_cons.
    apply elem_of_cons in Hp. destruct Hp as [->|Hp].
    + apply add_to_sys_path_keeps.
      rewrite (bool_decide_eq_true_2 _ Hex); simpl.
      destruct (bool_decide (q ∈ sys_path)) eqn:Hin; simpl.
      * apply bool_decide_eq_true in Hin. exact Hin.
      * left.
    + apply IH; assumption.
Qed.

Lemma add_to_sys_path_fixed pkgs : forall sys_path,
  (forall p, p ∈ pkgs -> is_Some (fs !! p) -> p ∈ sys_path) ->
  add_to_sys_path pkgs fs sys_path = sys_path.
Proof.
  induction pkgs as [|q pkgs IH]; intros sys_path Hall.
  - reflexivity.
  - rewrite add_to_sys_path_cons.
    destruct (bool_decide (is_Some (fs !! q))) eqn:Hex; simpl.
    + apply bool_decide_eq_true in Hex.
      rewrite (bool_decide_eq_true_2 (q ∈ sys_path)); simpl.
      * apply IH. intros p Hp. apply Hall. right. exact Hp.
      * apply Hall; [left|exact Hex].
    + apply IH. intros p Hp. apply Hall. right. exact Hp.
Qed.

End SearchPath.

(** X10. Loading the module only ever puts entries in front of the module
    search path: the path it found is kept, in order, behind them. What it
    adds are directories of [SITE_PACKAGES] that exist and were not on the
    path, each once, so a path without duplicates stays so; every
    directory of [SITE_PACKAGES] that exists is on the path afterwards;
    when both exist and neither was on the path, the second one, [Lib],
    comes first; and loading the module again changes nothing. *)
Theorem site_packages_on_path (fs : FS) (sys_path : list string) :
  (exists added,
     add_site_packages fs sys_path = added ++ sys_path /\
     (forall p, p ∈ added ->
                p ∈ SITE_PACKAGES /\ is_Some (fs !! p) /\ p ∉ sys_path) /\
     (NoDup sys_path -> NoDup (add_site_packages fs sys_path))) /\
  (forall p, p ∈ SITE_PACKAGES -> is_Some (fs !! p) ->
             p ∈ add_site_packages fs sys_path) /\
  ((forall p, p ∈ SITE_PACKAGES -> is_Some (fs !! p) /\ p ∉ sys_path) ->
   add_site_packages fs sys_path = rev SITE_PACKAGES ++ sys_path) /\
  add_site_packages fs (add_site_packages fs sys_path) =
  add_site_packages fs sys_path.
Proof.
  unfold add_site_packages. repeat split.
  - destruct (add_to_sys_path_suffix fs SITE_PACKAGES sys_path)
      as (added & Heq & Hadded & Hnd).
    exists added. rewrite Heq. auto.
  - intros p. apply add_to_sys_path_contains.
  - intros Hall. unfold SITE_PACKAGES in *.
    rewrite !add_to_sys_path_cons.
    match goal with
    | H : forall p, p ∈ [?a; ?b] -> _ |- _ =>
        destruct (H a) as [Ha1 Ha2]; [left|];
        destruct (H b) as [Hb1 Hb2]; [right; left|]
    end.
    rewrite (bool_decide_eq_true_2 _ Ha1), (bool_decide_eq_false_2 _ Ha2).
    simpl andb. cbv iota.
    rewrite (bool_decide_eq_true_2 _ Hb1).
    rewrite bool_decide_eq_false_2.
    + reflexivity.
    + intros Hin. apply elem_of_cons in Hin. destruct Hin as [Heq|Hin].
      * discriminate Heq.
      * exact (Hb2 Hin).
  - apply add_to_sys_path_fixed. intros p. apply add_to_sys_path_contains.
Qed.

Lemma site_packages_on_path_witness :
  add_site_packages
    (<["C:\Users\adit\AppData\Local\Programs\Python\Python312\Lib" := Dir]>
       (<["C:\Users\adit\AppData\Local\Programs\Python\Python312\Lib\site-packages"
          := Dir]> ∅))
    ["C:\app"] =
  [ "C:\Users\adit\AppData\Local\Programs\Python\Python312\Lib";
    "C:\Users\adit\AppData\Local\Programs\Python\Python312\Lib\site-packages";
    "C:\app" ].
Proof.
  apply (proj1 (proj2 (proj2 (site_packages_on_path _ ["C:\app"])))).
  intros p Hp. unfold SITE_PACKAGES in Hp.
  apply elem_of_cons in Hp. destruct Hp as [->|Hp].
  - split; [vm_compute; eauto|].
    intros Hin. apply list_elem_of_singleton in Hin. discriminate.
  - apply list_elem_of_singleton in Hp. subst p.
    split; [vm_compute; eauto|].
    intros Hin. apply list_elem_of_singleton in Hin. discriminate.
Defined.

(* ===================================================================== *)
(** * Every way a run of build_assets.py can end *)
(* ===================================================================== *)

Section Endings.
Context `{TOOLS : Tools}.

Lemma joinpath_ne d name :
  starts_with "/" name = false -> name <> "" -> joinpath d name <> d.
Proof.
  unfold joinpath, os_path_join. intros -> Hname H.
  apply (f_equal String.length) in H.
  destruct (String.eqb d "" || ends_with "/" d);
    rewrite ?length_app in H; simpl in H;
    destruct name; [congruence|simpl in H; lia|congruence|simpl in H; lia].
Qed.


Lemma zip_path_ne_dir output_dir : zip_path output_dir <> resolve output_dir.
Proof. apply joinpath_ne; [reflexivity|discriminate]. Qed.

Lemma makedirs_ne fs d fs1 p :
  makedirs fs d = Ok fs1 -> p <> d -> fs1 !! p = fs !! p.
Proof.
  unfold makedirs. destruct (String.eqb d ""); [discriminate|].
  destruct (fs !! d) as [[data|]|]; intros H Hp; inversion H; subst;
    [reflexivity|].
  apply lookup_insert_ne. auto.
Qed.




Lemma py_compile_Ok fs file cfile fs2 :
  py_compile fs file cfile = Ok fs2 ->
  fs !! cfile <> Some Dir /\
  exists source code,
    fs !! file = Some (File source) /\
    source_to_code source = Ok code /\
    fs2 = <[cfile := File code]> fs.
Proof.
  unfold py_compile, read_file. intros H.
  assert (Hc : fs !! cfile <> Some Dir).
  { intros Hdir. rewrite Hdir in H. discriminate. }
  split; [exact Hc|].
  assert (Hrest :
    match fs !! file with
    | Some (File source) =>
        match source_to_code source with
        | Raise e => Raise e
        | Ok code => Ok (<[cfile := File code]> fs)
        end
    | Some Dir =>
        Raise (mkExn IsADirectoryError
                 ("[Errno 21] Is a directory: " +:+ file))
    | None =>
        Raise (mkExn FileNotFoundError
                 ("[Errno 2] No such file or directory: " +:+ file))
    end = Ok fs2).
  { destruct (fs !! cfile) as [[old|]|];
      [|exfalso; apply Hc; reflexivity|];
      destruct (fs !! file) as [[source|]|];
      try discriminate; destruct (source_to_code source);
      try discriminate; exact H. }
  destruct (fs !! file) as [[source|]|]; try discriminate.
  destruct (source_to_code source) as [code|e] eqn:Hcode; [|discriminate].
  injection Hrest as <-. eauto.
Qed.

Lemma build_assets_ending input_py output_dir fs :
  Ending input_py output_dir fs (build_assets input_py output_dir fs).
Proof.
  destruct (fs !! resolve input_py) as [n|] eqn:Hin.
  2:{ replace (build_assets input_py output_dir fs) with
        (Exit 1, fs,
         ["Error: Input file " +:+ resolve input_py +:+ " does not exist"]).
      - apply no_input, Hin.
      - unfold build_assets, path_exists. rewrite Hin. reflexivity. }
  assert (Hsome : is_Some (fs !! resolve input_py)) by (rewrite Hin; eauto).
  destruct (makedirs fs (resolve output_dir)) as [fs1|e] eqn:Hmk.
  2:{ replace (build_assets input_py output_dir fs) with
        (Uncaught e, fs, @nil string).
      - apply no_directory; assumption.
      - unfold build_assets, path_exists. rewrite Hin; simpl.
        rewrite Hmk. reflexivity. }
  destruct (py_compile fs1 (resolve input_py) (pyc_path output_dir))
    as [fs2|e] eqn:Hpc.
  2:{ replace (build_assets input_py output_dir fs) with
        (Exit 1, fs1,
         [ "Compiling " +:+ resolve input_py +:+ " -> " +:+
             pyc_path output_dir +:+ "...";
           "Compilation failed: " +:+ exn_str e ]).
      - apply no_byte_code; assumption.
      - unfold build_assets, path_exists. rewrite Hin; simpl.
        rewrite Hmk. fold (pyc_path output_dir). rewrite Hpc.
        reflexivity. }
  destruct (py_compile_Ok _ _ _ _ Hpc)
    as (Hpyc & source & code & Hsrc1 & Hcode & ->).
  assert (Hsrc : fs !! resolve input_py = Some (File source)).
  { rewrite <- (makedirs_other _ _ _ _ Hmk Hsome). exact Hsrc1. }
  assert (Hcases : fs1 !! zip_path output_dir = Some Dir \/
                   fs1 !! zip_path output_dir <> Some Dir).
  { destruct (fs1 !! zip_path output_dir) as [[old|]|];
      [right; discriminate|left; reflexivity|right; discriminate]. }
  destruct Hcases as [Hzip|Hzip].
  - replace (build_assets input_py output_dir fs) with
      (Uncaught (mkExn IsADirectoryError
                   ("[Errno 21] Is a directory: " +:+ zip_path output_dir)),
       <[pyc_path output_dir := File code]> fs1,
       [ "Compiling " +:+ resolve input_py +:+ " -> " +:+
           pyc_path output_dir +:+ "...";
         "Creating " +:+ zip_path output_dir +:+ "..." ]).
    + eapply no_archive; eassumption.
    + unfold build_assets, path_exists. rewrite Hin; simpl.
      rewrite Hmk. fold (pyc_path output_dir) (zip_path output_dir).
      rewrite Hpc. unfold zip_write, open_w.
      rewrite (lookup_insert_ne _ _ _ _
                 (not_eq_sym (zip_path_ne_pyc_path _))).
      rewrite Hzip. reflexivity.
  - rewrite (build_assets_runs _ _ _ _ _ _ Hsrc Hcode Hmk Hpyc Hzip).
    eapply packaged; eassumption.
Qed.

End Endings.

Section EndingFacts.
Context `{TOOLS : Tools}.

Lemma ending_status input_py output_dir fs run :
  Ending input_py output_dir fs run ->
  (exit_status (fst (fst run)) = 0 \/ exit_status (fst (fst run)) = 1) /\
  (exit_status (fst (fst run)) = 0 <->
   last (snd run) = Some "Success! Created app_modules.zip").
Proof.
  destruct 1; simpl; (split; [auto|]); split; intros Hlast;
    try discriminate; try reflexivity;
    injection Hlast as Hlast; apply (f_equal first_char) in Hlast;
    vm_compute in Hlast; discriminate.
Qed.





End EndingFacts.

(** X11. The exit status of build_assets.py is 0 or 1, and it is 0 exactly
    when the last line printed is "Success! Created app_modules.zip"; a
    command line that does not have exactly two arguments after the
    program name prints the usage line, exits with status 1 and leaves the
    file system alone. *)
Theorem main_exit_status `{TOOLS : Tools} (argv : list string) (fs : FS) :
  let run := main argv fs in
  (exit_status (fst (fst run)) = 0 \/ exit_status (fst (fst run)) = 1) /\
  (exit_status (fst (fst run)) = 0 <->
   last (snd run) = Some "Success! Created app_modules.zip") /\
  (List.length argv <> 3%nat ->
   run = (Exit 1, fs,
          ["Usage: python build_assets.py <input_py_file> <output_dir>"])).
Proof.
  simpl.
  assert (Husage :
    List.length argv <> 3%nat ->
    main argv fs =
    (Exit 1, fs,
     ["Usage: python build_assets.py <input_py_file> <output_dir>"])).
  { destruct argv as [|a [|b [|c [|d l]]]]; simpl; intros Hlen;
      try reflexivity. contradiction. }
  assert (Hcases :
    List.length argv <> 3%nat \/
    exists input_py output_dir,
      main argv fs = build_assets input_py output_dir fs).
  { destruct argv as [|a [|b [|c [|d l]]]]; simpl;
      try (left; discriminate). right. eauto. }
  destruct Hcases as [Hlen|(input_py & output_dir & Hrun)].
  - rewrite (Husage Hlen); simpl. split; [auto|]. split; [|auto].
    split; discriminate.
  - rewrite Hrun.
    destruct (ending_status _ _ _ _
                (build_assets_ending input_py output_dir fs)) as [H1 H2].
    split; [exact H1|]. split; [exact H2|].
    rewrite <- Hrun. exact Husage.
Qed.

Lemma main_exit_status_witness :
  @main Sample.tools ["build_assets.py"; "/src/process.py"] Sample.fs0 =
  (Exit 1, Sample.fs0,
   ["Usage: python build_assets.py <input_py_file> <output_dir>"]).
Proof.
  apply (proj2 (proj2 (@main_exit_status Sample.tools
                         ["build_assets.py"; "/src/process.py"]
                         Sample.fs0))).
  simpl. lia.
Defined.



(** X13. build_assets lets an exception escape in two situations only.
    Either the output directory cannot be made: then nothing was printed
    and nothing changed. Or the source compiled and app_modules.zip is a
    directory: then opening the archive raised [IsADirectoryError] after
    the second line was printed, and the compiled image_processor.pyc is
    left behind in the output directory. *)
Theorem build_assets_uncaught `{TOOLS : Tools}
    (input_py output_dir : string) (fs : FS) (e : Exn) :
  let run := build_assets input_py output_dir fs in
  fst (fst run) = Uncaught e ->
  (makedirs fs (resolve output_dir) = Raise e /\
   snd (fst run) = fs /\ snd run = []) \/
  (exists source code fs1,
     fs !! resolve input_py = Some (File source) /\
     source_to_code source = Ok code /\
     makedirs fs (resolve output_dir) = Ok fs1 /\
     fs !! zip_path output_dir = Some Dir /\
     exn_class e = IsADirectoryError /\
     snd (fst run) = <[pyc_path output_dir := File code]> fs1 /\
     last (snd run) =
       Some ("Creating " +:+ zip_path output_dir +:+ "...")).
Proof.
  simpl. pose proof (build_assets_ending input_py output_dir fs) as Hend.
  destruct Hend; simpl; intros Hrun; try discriminate;
    injection Hrun as <-.
  - left. auto.
  - right. exists source, code, fs1. repeat apply conj; auto.
    rewrite <- (makedirs_ne _ _ _ _ H1 (zip_path_ne_dir output_dir)).
    assumption.
Qed.

Lemma build_assets_uncaught_witness :
  let fs := <["/out/app_modules.zip" := Dir]> Sample.fs0 in
  let run := @build_assets Sample.tools "/src/process.py" "/out" fs in
  (@makedirs fs "/out" =
     Raise (mkExn IsADirectoryError
              "[Errno 21] Is a directory: /out/app_modules.zip") /\
   snd (fst run) = fs /\ snd run = []) \/
  (exists source code fs1,
     fs !! "/src/process.py" = Some (File source) /\
     @source_to_code Sample.tools source = Ok code /\
     makedirs fs "/out" = Ok fs1 /\
     fs !! "/out/app_modules.zip" = Some Dir /\
     IsADirectoryError = IsADirectoryError /\
     snd (fst run) = <["/out/image_processor.pyc" := File code]> fs1 /\
     last (snd run) = Some "Creating /out/app_modules.zip...").
Proof.
  apply (@build_assets_uncaught Sample.tools "/src/process.py" "/out"
           (<["/out/app_modules.zip" := Dir]> Sample.fs0)
           (mkExn IsADirectoryError
              "[Errno 21] Is a directory: /out/app_modules.zip")).
  vm_compute. reflexivity.
Defined.


